(** * The monitoring service of [src/monitoring/monitor.js]

    A shallow embedding of the in-memory metrics store, of the five HTTP
    handlers that read and write it and of the periodic [collectMetrics]
    timer, followed by the properties of the health-aggregation engine.

    Conventions of the model.
    - A JavaScript number is an integer [Z]: the counters of the program are
      incremented by one from zero and the lengths it computes are array
      lengths, all exact in the double-precision range the program can reach;
      a number in a request is an integer of that range, printed in decimal.
    - A JavaScript string is a [string]; each character is one code unit.
    - [Date.now()] and [new Date().toISOString()] are inputs of the handler
      that calls them, in the order of the calls.
    - [JSON.stringify] and [JSON.parse] are parameters of the development:
      every statement holds for any implementation of the two builtins.
    - [console.log] has no effect on the state and is left out; a failing
      [fs.appendFileSync] is swallowed by the program and is not modelled
      (the append always reaches the file). *)

From Stdlib Require Import Ascii String ZArith.
From stdpp Require Import gmap strings list fin_maps pretty sorting.

Open Scope Z_scope.
Set Warnings "-register-all".

(** ** JavaScript values *)

(** The primitive values a JSON request body can give to a field, with
    [JUndefined] for a field that is absent. *)
Inductive prim : Type :=
  | JUndefined
  | JNull
  | JBool (b : bool)
  | JNum (n : Z)
  | JStr (s : string).

#[global] Instance prim_eq_dec : EqDecision prim.
Proof. solve_decision. Defined.

(** Values sent in responses and written to, or parsed from, the log file. *)
Inductive jsval : Type :=
  | VPrim (p : prim)
  | VArr (items : list jsval)
  | VObj (fields : list (string * jsval)).

Coercion VPrim : prim >-> jsval.

(** [ToBoolean]: the falsy primitives are [undefined], [null], [false], [0]
    and the empty string. *)
Definition truthy (p : prim) : bool :=
  match p with
  | JUndefined | JNull => false
  | JBool b => b
  | JNum n => negb (n =? 0)
  | JStr s => negb (String.eqb s "")
  end.

(** [ToString] on primitives; it is also [ToPropertyKey] for them. *)
Definition ToString (p : prim) : string :=
  match p with
  | JUndefined => "undefined"
  | JNull => "null"
  | JBool true => "true"
  | JBool false => "false"
  | JNum n => pretty n
  | JStr s => s
  end.

(** [a === b] on primitives. *)
Definition strict_eq (a b : prim) : bool := bool_decide (a = b).

(** Own-property read [o.k] of an object given by its field list. *)
Fixpoint field {A : Type} (dflt : A) (k : string) (fs : list (string * A)) : A :=
  match fs with
  | [] => dflt
  | (k', v) :: fs' => if String.eqb k k' then v else field dflt k fs'
  end.

(** [v.k] for a value that was sent or parsed: the fields of an object are
    looked up; on anything else the property is [undefined].  (None of the
    names read this way, [level] and the fields of the responses, is a
    property of a builtin prototype.) *)
Definition prop (k : string) (v : jsval) : jsval :=
  match v with
  | VObj fs => field (VPrim JUndefined) k fs
  | _ => VPrim JUndefined
  end.

(** [Array.prototype.slice(start)] with one argument, any integer. *)
Definition slice {A : Type} (start : Z) (l : list A) : list A :=
  let len := Z.of_nat (length l) in
  let k := if start <? 0 then Z.max (len + start) 0 else Z.min start len in
  drop (Z.to_nat k) l.

(** ** The store *)

(** One entry of [metrics.servers], the object literal of lines 90-97. *)
Module Server.
Record t : Type := mk {
  name : prim;
  status : prim;
  responseTime : prim;
  error : prim;
  lastChecked : Z;
  checksCount : Z
}.

(** The own enumerable properties, as [{...server}] and [res.json] see them. *)
Definition fields (r : t) : list (string * jsval) :=
  [("name", VPrim (name r)); ("status", VPrim (status r));
   ("responseTime", VPrim (responseTime r)); ("error", VPrim (error r));
   ("lastChecked", VPrim (JNum (lastChecked r)));
   ("checksCount", VPrim (JNum (checksCount r)))].

(** [r[k]] for a property name [k] of the literal, [None] for any other. *)
Definition own (r : t) (k : string) : option prim :=
  if String.eqb k "name" then Some (name r)
  else if String.eqb k "status" then Some (status r)
  else if String.eqb k "responseTime" then Some (responseTime r)
  else if String.eqb k "error" then Some (error r)
  else if String.eqb k "lastChecked" then Some (JNum (lastChecked r))
  else if String.eqb k "checksCount" then Some (JNum (checksCount r))
  else None.
End Server.

(** [metrics.systemStats]. *)
Module Stats.
Record t : Type := mk {
  startTime : Z;
  totalRequests : Z;
  errorCount : Z;
  lastUpdate : Z
}.
End Stats.

(** One element of [metrics.history]: the [currentMetrics] literal of
    [collectMetrics]. *)
Module Sample.
Record t : Type := mk {
  timestamp : Z;
  uptime : Z;
  totalRequests : Z;
  errorCount : Z;
  servers : Z;
  healthyServers : Z
}.

Definition to_js (h : t) : jsval :=
  VObj [("timestamp", VPrim (JNum (timestamp h)));
        ("uptime", VPrim (JNum (uptime h)));
        ("totalRequests", VPrim (JNum (totalRequests h)));
        ("errorCount", VPrim (JNum (errorCount h)));
        ("servers", VPrim (JNum (servers h)));
        ("healthyServers", VPrim (JNum (healthyServers h)))].
End Sample.

(** The mutable state of the process: the [metrics] object and the contents
    of the file at [logFile] ([None] while the file does not exist).

    [metrics.servers] is an ordinary object used as a table.  Its own
    properties are [servers]; [servers_proto] is its prototype slot, [None]
    for the initial [Object.prototype] and [Some r] once an assignment to the
    key [__proto__] has replaced it by the record [r]. *)
Record state : Type := mkState {
  servers : gmap string Server.t;
  servers_proto : option Server.t;
  systemStats : Stats.t;
  history : list Sample.t;
  logFileContent : option string
}.

(** The state at module load: the initial [metrics], whose two calls of
    [Date.now()] read [t0] and [t1], and the log file as an earlier run left
    it, if any. *)
Definition metrics0 (t0 t1 : Z) (file : option string) : state :=
  mkState ∅ None (Stats.mk t0 0 0 t1) [] file.

Definition set_stats (f : Stats.t → Stats.t) (s : state) : state :=
  mkState (servers s) (servers_proto s) (f (systemStats s)) (history s)
          (logFileContent s).

(** [metrics.systemStats.totalRequests++] *)
Definition incr_totalRequests (s : state) : state :=
  set_stats (λ st, Stats.mk (Stats.startTime st) (Stats.totalRequests st + 1)
                            (Stats.errorCount st) (Stats.lastUpdate st)) s.

(** [metrics.systemStats.errorCount++] *)
Definition incr_errorCount (s : state) : state :=
  set_stats (λ st, Stats.mk (Stats.startTime st) (Stats.totalRequests st)
                            (Stats.errorCount st + 1) (Stats.lastUpdate st)) s.

(** ** Property access on [metrics.servers] *)

(** What [metrics.servers[key]] can evaluate to. *)
Inductive jsref : Type :=
  | RPrim (p : prim)
  | RServer (r : Server.t)
  | RFunction (fname : string)
  | RObjectPrototype.

(** The data properties of [Object.prototype], all of them functions. *)
Definition Object_prototype_functions : list string :=
  ["constructor"; "__defineGetter__"; "__defineSetter__"; "hasOwnProperty";
   "__lookupGetter__"; "__lookupSetter__"; "isPrototypeOf";
   "propertyIsEnumerable"; "toString"; "valueOf"; "toLocaleString"].

(** [metrics.servers[key]]: an own property first, then the prototype chain.
    The accessor [__proto__] of [Object.prototype] returns the prototype of
    the table itself. *)
Definition servers_get (s : state) (key : string) : jsref :=
  match servers s !! key with
  | Some r => RServer r
  | None =>
      match servers_proto s ≫= (λ r, Server.own r key) with
      | Some p => RPrim p
      | None =>
          if String.eqb key "__proto__" then
            match servers_proto s with
            | Some r => RServer r
            | None => RObjectPrototype
            end
          else if bool_decide (key ∈ Object_prototype_functions) then
            RFunction key
          else RPrim JUndefined
      end
  end.

(** [metrics.servers[key] = r]: the setter of [__proto__] replaces the
    prototype (unless the table had an own property of that name, which the
    program never creates); any other key becomes, or overwrites, an own
    property. *)
Definition servers_set (key : string) (r : Server.t) (s : state) : state :=
  if String.eqb key "__proto__" && bool_decide (servers s !! key = None) then
    mkState (servers s) (Some r) (systemStats s) (history s) (logFileContent s)
  else
    mkState (<[key := r]> (servers s)) (servers_proto s) (systemStats s)
            (history s) (logFileContent s).

(** [!x] for such a result. *)
Definition ref_truthy (x : jsref) : bool :=
  match x with
  | RPrim p => truthy p
  | _ => true
  end.

(** [x?.checksCount], [None] for [undefined]: only a record has the
    property; a primitive, a builtin function and [Object.prototype] do not. *)
Definition ref_checksCount (x : jsref) : option Z :=
  match x with
  | RServer r => Some (Server.checksCount r)
  | _ => None
  end.

(** [c || 0] for a number or [undefined]. *)
Definition or_zero (c : option Z) : Z :=
  match c with
  | Some n => if n =? 0 then 0 else n
  | None => 0
  end.

(** [x.status] and [x.responseTime]. *)
Definition ref_status (x : jsref) : prim :=
  match x with RServer r => Server.status r | _ => JUndefined end.

Definition ref_responseTime (x : jsref) : prim :=
  match x with RServer r => Server.responseTime r | _ => JUndefined end.

(** [{...x}]: the own enumerable properties; a string spreads its
    characters under their indices, a function and [Object.prototype] have
    none. *)
Fixpoint spread_string (i : nat) (str : string) : list (string * jsval) :=
  match str with
  | EmptyString => []
  | String c rest =>
      (pretty i, VPrim (JStr (String c EmptyString))) :: spread_string (S i) rest
  end.

Definition ref_spread (x : jsref) : list (string * jsval) :=
  match x with
  | RServer r => Server.fields r
  | RPrim (JStr str) => spread_string 0 str
  | _ => []
  end.

(** ** Strings: [parseInt], [split] and [trim] *)

(** The white space and line terminators of the language among the code
    units below 256: TAB, LF, VT, FF, CR, SP and NBSP. *)
Definition is_StrWhiteSpaceChar (c : ascii) : bool :=
  let n := N_of_ascii c in
  ((9 <=? n) && (n <=? 13) || (n =? 32) || (n =? 160))%N.

Fixpoint trim_start (str : string) : string :=
  match str with
  | String c rest => if is_StrWhiteSpaceChar c then trim_start rest else str
  | EmptyString => EmptyString
  end.

(** The value of a digit character in the largest radix, 36. *)
Definition digit_value (c : ascii) : option Z :=
  let n := Z.of_N (N_of_ascii c) in
  if (48 <=? n) && (n <=? 57) then Some (n - 48)
  else if (97 <=? n) && (n <=? 122) then Some (n - 87)
  else if (65 <=? n) && (n <=? 90) then Some (n - 55)
  else None.

(** The longest prefix of radix-[radix] digits, as a number; [acc] is the
    value read so far, [None] while no digit was read. *)
Fixpoint parse_digits (radix : Z) (str : string) (acc : option Z) : option Z :=
  match str with
  | EmptyString => acc
  | String c rest =>
      match digit_value c with
      | Some d =>
          if d <? radix
          then parse_digits radix rest (Some (default 0 acc * radix + d))
          else acc
      | None => acc
      end
  end.

(** [parseInt(input)] without a radix; [None] is [NaN]. *)
Definition parseInt (input : prim) : option Z :=
  let S0 := trim_start (ToString input) in
  let '(sign, S1) :=
    match S0 with
    | String "-" rest => (-1, rest)
    | String "+" rest => (1, rest)
    | _ => (1, S0)
    end in
  let '(radix, S2) :=
    match S1 with
    | String "0" (String "x" rest) => (16, rest)
    | String "0" (String "X" rest) => (16, rest)
    | _ => (10, S1)
    end in
  (λ n, sign * n) <$> parse_digits radix S2 None.

(** [str.split('\n')] *)
Fixpoint split_lines (str : string) : list string :=
  match str with
  | EmptyString => [EmptyString]
  | String c rest =>
      if Ascii.eqb c "010" then EmptyString :: split_lines rest
      else match split_lines rest with
           | line :: lines => String c line :: lines
           | [] => [String c EmptyString]
           end
  end.

(** [!str.trim()]: the string holds white space only. *)
Fixpoint blank (str : string) : bool :=
  match str with
  | EmptyString => true
  | String c rest => is_StrWhiteSpaceChar c && blank rest
  end.

(** ** Requests and responses *)

(** [res.status(code).json(body)]; [res.json] alone answers 200. *)
Record response : Type := mkResponse {
  statusCode : Z;
  body : jsval
}.

(** A request parameter that is absent or given once. *)
Definition param (q : option string) : prim :=
  match q with
  | Some v => JStr v
  | None => JUndefined
  end.

(** What the process reacts to.  [req.body] is the parsed JSON object of the
    request, as the list of its fields ([express.json()] leaves the empty
    object when there is no body); the values of the fields are primitives.
    The numbers and time stamps are the clock readings of the handler.
    [MiddlewareError] is a request that ends in the error-handling
    middleware, such as one whose body is not JSON.  A request for the
    dashboard page or for an unknown route leaves the state alone and is not
    an event. *)
Inductive event : Type :=
  | PostHealthCheck (req_body : list (string * prim)) (now : Z) (ts : string)
  | GetMetrics (now : Z) (ts : string) (t1 t2 : Z)
  | GetServerMetrics (serverId : string)
  | GetLogs (limit level : option string) (ts : string)
  | GetHealth (t1 t2 : Z)
  | Listening (ts1 ts2 : string) (now : Z) (ts3 : string)
  | Interval (now : Z) (ts : string)
  | MiddlewareError (error : jsval) (ts : string).

(** The error thrown by [fs.readFileSync] on a missing file, as
    [JSON.stringify] sees it. *)
Definition ENOENT : jsval :=
  VObj [("errno", VPrim (JNum (-2))); ("code", VPrim (JStr "ENOENT"));
        ("syscall", VPrim (JStr "open"));
        ("path", VPrim (JStr "/logs/ai-first-monitoring.log"))].

Definition is_null (v : jsval) : bool :=
  match v with
  | VPrim JNull => true
  | _ => false
  end.

(** [v === str] for a string [str]. *)
Definition is_string (str : string) (v : jsval) : bool :=
  match v with
  | VPrim p => strict_eq p (JStr str)
  | _ => false
  end.

(** ** An implementation of the two builtins

    [JSON.stringify] on the values of the model and [JSON.parse] on the texts
    that are one decimal integer literal.  The section below does not depend
    on them; they serve to run the handlers on concrete inputs. *)
Module JSON.

Definition hex_digit (n : N) : ascii :=
  ascii_of_N (if (n <? 10)%N then 48 + n else 87 + n)%N.

(** One code unit inside a quoted string. *)
Definition quote_char (c : ascii) : string :=
  let n := N_of_ascii c in
  if (n =? 34)%N then String "092" (String "034" "")
  else if (n =? 92)%N then String "092" (String "092" "")
  else if (n =? 8)%N then String "092" "b"
  else if (n =? 9)%N then String "092" "t"
  else if (n =? 10)%N then String "092" "n"
  else if (n =? 12)%N then String "092" "f"
  else if (n =? 13)%N then String "092" "r"
  else if (n <? 32)%N then
    String "092" (String "u" (String "0" (String "0"
      (String (hex_digit (n / 16)) (String (hex_digit (n mod 16)) "")))))
  else String c "".

Fixpoint quote_chars (str : string) : string :=
  match str with
  | EmptyString => EmptyString
  | String c rest => quote_char c +:+ quote_chars rest
  end.

Definition quote (str : string) : string :=
  String "034" (quote_chars str +:+ String "034" "").

Definition join (parts : list string) : string := String.concat "," parts.

(** A property whose value is [undefined] is left out of an object; an
    [undefined] element of an array is printed as [null]. *)
Fixpoint stringify (v : jsval) : string :=
  match v with
  | VPrim (JStr str) => quote str
  | VPrim JUndefined => "null"
  | VPrim p => ToString p
  | VArr items =>
      "[" +:+ join ((fix elements (l : list jsval) : list string :=
                       match l with
                       | [] => []
                       | x :: l' => stringify x :: elements l'
                       end) items) +:+ "]"
  | VObj fs =>
      "{" +:+ join ((fix members (l : list (string * jsval)) : list string :=
                       match l with
                       | [] => []
                       | (_, VPrim JUndefined) :: l' => members l'
                       | (k, x) :: l' =>
                           (quote k +:+ ":" +:+ stringify x) :: members l'
                       end) fs) +:+ "}"
  end.

Fixpoint all_digits (str : string) : bool :=
  match str with
  | EmptyString => true
  | String c rest =>
      let n := N_of_ascii c in (48 <=? n)%N && (n <=? 57)%N && all_digits rest
  end.

(** [JSON.parse] on a text that is a decimal integer literal without sign;
    every other text is refused. *)
Definition parse_integer (text : string) : option jsval :=
  match text with
  | EmptyString => None
  | String "0" (String _ _) => None
  | _ => if all_digits text
         then (λ n, VPrim (JNum n)) <$> parse_digits 10 text None
         else None
  end.

(** [JSON.parse] on the texts whose numbers are integer literals and whose
    strings hold code units below 256; any other text is refused, as is a
    text that needs more nesting than [fuel].  Of the members of an object
    with the same name the last one counts. *)

Definition is_ws (c : ascii) : bool :=
  let n := N_of_ascii c in ((n =? 32) || (n =? 9) || (n =? 10) || (n =? 13))%N.

Fixpoint skip_ws (str : string) : string :=
  match str with
  | String c rest => if is_ws c then skip_ws rest else str
  | EmptyString => EmptyString
  end.

Definition hex_value (c : ascii) : option N :=
  match digit_value c with
  | Some d => if d <? 16 then Some (Z.to_N d) else None
  | None => None
  end.

(** The characters of a string literal after its opening quote, and the
    rest of the text after its closing quote. *)
Fixpoint parse_chars (str : string) : option (string * string) :=
  match str with
  | EmptyString => None
  | String c rest =>
      let n := N_of_ascii c in
      if (n =? 34)%N then Some (EmptyString, rest)
      else if (n <? 32)%N then None
      else if (n =? 92)%N then
        match rest with
        | String e rest' =>
            let unescaped (u : ascii) (tl : string) :=
              match parse_chars tl with
              | Some (chars, after) => Some (String u chars, after)
              | None => None
              end in
            if Ascii.eqb e "034" then unescaped "034"%char rest'
            else if Ascii.eqb e "092" then unescaped "092"%char rest'
            else if Ascii.eqb e "/" then unescaped "/"%char rest'
            else if Ascii.eqb e "b" then unescaped "008"%char rest'
            else if Ascii.eqb e "f" then unescaped "012"%char rest'
            else if Ascii.eqb e "n" then unescaped "010"%char rest'
            else if Ascii.eqb e "r" then unescaped "013"%char rest'
            else if Ascii.eqb e "t" then unescaped "009"%char rest'
            else if Ascii.eqb e "u" then
              match rest' with
              | String "0" (String "0" (String h1 (String h0 rest''))) =>
                  match hex_value h1, hex_value h0 with
                  | Some d1, Some d0 =>
                      unescaped (ascii_of_N (16 * d1 + d0)) rest''
                  | _, _ => None
                  end
              | _ => None
              end
            else None
        | EmptyString => None
        end
      else
        match parse_chars rest with
        | Some (chars, after) => Some (String c chars, after)
        | None => None
        end
  end.

(** The digits at the head of a text and what follows them. *)
Fixpoint span_digits (str : string) : string * string :=
  match str with
  | String c rest =>
      if all_digits (String c EmptyString)
      then let '(ds, after) := span_digits rest in (String c ds, after)
      else (EmptyString, str)
  | EmptyString => (EmptyString, EmptyString)
  end.

(** An integer literal without sign at the head of a text. *)
Definition parse_natural (str : string) : option (Z * string) :=
  let '(ds, after) := span_digits str in
  match ds, after with
  | EmptyString, _ => None
  | String "0" (String _ _), _ => None
  | _, String "." _ | _, String "e" _ | _, String "E" _ => None
  | _, _ => (λ n, (n, after)) <$> parse_digits 10 ds None
  end.

Fixpoint set_member (k : string) (v : jsval) (fs : list (string * jsval))
    : list (string * jsval) :=
  match fs with
  | [] => [(k, v)]
  | (k', v') :: fs' =>
      if String.eqb k k' then (k, v) :: fs' else (k', v') :: set_member k v fs'
  end.

Definition literal (word : string) (v : jsval) (str : string)
    : option (jsval * string) :=
  if String.prefix word str
  then Some (v, String.substring (String.length word)
                  (String.length str - String.length word) str)
  else None.

Fixpoint parse_value (fuel : nat) (str : string) : option (jsval * string) :=
  match fuel with
  | O => None
  | S fuel' =>
      match skip_ws str with
      | String "{" rest =>
          match skip_ws rest with
          | String "}" after => Some (VObj [], after)
          | _ => parse_members fuel' rest []
          end
      | String "[" rest =>
          match skip_ws rest with
          | String "]" after => Some (VArr [], after)
          | _ => parse_elements fuel' rest []
          end
      | String "034" rest =>
          match parse_chars rest with
          | Some (chars, after) => Some (VPrim (JStr chars), after)
          | None => None
          end
      | String "-" rest =>
          match parse_natural rest with
          | Some (n, after) => Some (VPrim (JNum (- n)), after)
          | None => None
          end
      | String "t" _ => literal "true" (VPrim (JBool true)) (skip_ws str)
      | String "f" _ => literal "false" (VPrim (JBool false)) (skip_ws str)
      | String "n" _ => literal "null" (VPrim JNull) (skip_ws str)
      | text =>
          match parse_natural text with
          | Some (n, after) => Some (VPrim (JNum n), after)
          | None => None
          end
      end
  end
with parse_members (fuel : nat) (str : string) (acc : list (string * jsval))
    : option (jsval * string) :=
  match fuel with
  | O => None
  | S fuel' =>
      match skip_ws str with
      | String "034" rest =>
          match parse_chars rest with
          | Some (k, after) =>
              match skip_ws after with
              | String ":" after' =>
                  match parse_value fuel' after' with
                  | Some (v, after'') =>
                      match skip_ws after'' with
                      | String "," more =>
                          parse_members fuel' more (set_member k v acc)
                      | String "}" done => Some (VObj (set_member k v acc), done)
                      | _ => None
                      end
                  | None => None
                  end
              | _ => None
              end
          | None => None
          end
      | _ => None
      end
  end
with parse_elements (fuel : nat) (str : string) (acc : list jsval)
    : option (jsval * string) :=
  match fuel with
  | O => None
  | S fuel' =>
      match parse_value fuel' str with
      | Some (v, after) =>
          match skip_ws after with
          | String "," more => parse_elements fuel' more (acc ++ [v])
          | String "]" done => Some (VArr (acc ++ [v]), done)
          | _ => None
          end
      | None => None
      end
  end.

(** The whole text is one value; the length of the text is fuel enough. *)
Definition parse (text : string) : option jsval :=
  match parse_value (S (String.length text)) text with
  | Some (v, after) =>
      match skip_ws after with
      | EmptyString => Some v
      | _ => None
      end
  | None => None
  end.

End JSON.

Section Monitor.

(** The two builtins of the log file. [JSON_parse] is [None] where
    [JSON.parse] throws. *)
Variable JSON_stringify : jsval → string.
Variable JSON_parse : string → option jsval.

(** [log(level, message, data)] at the instant [ts]: one line appended to
    the log file. *)
Definition log (ts level message : string) (data : jsval) (s : state) : state :=
  let logEntry :=
    VObj [("timestamp", VPrim (JStr ts)); ("level", VPrim (JStr level));
          ("message", VPrim (JStr message)); ("data", data)] in
  mkState (servers s) (servers_proto s) (systemStats s) (history s)
          (Some (default "" (logFileContent s)
                 +:+ JSON_stringify logEntry +:+ String "010" "")).

(** [Object.keys(metrics.servers).length] *)
Definition serverCount (s : state) : Z :=
  Z.of_nat (length (map_to_list (servers s)).*1).

(** [Object.values(metrics.servers).filter(s => s.status === 'healthy').length] *)
Definition healthyCount (s : state) : Z :=
  Z.of_nat (length (List.filter
    (λ r, strict_eq (Server.status r) (JStr "healthy"))
    (map_to_list (servers s)).*2)).

(** The [currentMetrics] literal of [collectMetrics]. *)
Definition currentMetrics (now : Z) (s : state) : Sample.t :=
  Sample.mk now (now - Stats.startTime (systemStats s))
            (Stats.totalRequests (systemStats s))
            (Stats.errorCount (systemStats s))
            (serverCount s) (healthyCount s).

(** [metrics.history.push(h); if (metrics.history.length > 100) metrics.history.shift()] *)
Definition push_history (h : Sample.t) (hist : list Sample.t) : list Sample.t :=
  let pushed := hist ++ [h] in
  if 100 <? Z.of_nat (length pushed) then drop 1 pushed else pushed.

Definition collectMetrics (now : Z) (ts : string) (s : state) : state :=
  let cm := currentMetrics now s in
  let st := systemStats s in
  let s1 :=
    mkState (servers s) (servers_proto s)
            (Stats.mk (Stats.startTime st) (Stats.totalRequests st)
                      (Stats.errorCount st) now)
            (push_history cm (history s)) (logFileContent s) in
  log ts "info" "Metrics collected" (Sample.to_js cm) s1.

(** [app.post('/api/health-check')] *)
Definition post_health_check (req_body : list (string * prim)) (now : Z)
    (ts : string) (s : state) : state * response :=
  let s := incr_totalRequests s in
  let serverId := field JUndefined "serverId" req_body in
  let serverName := field JUndefined "serverName" req_body in
  let status := field JUndefined "status" req_body in
  let responseTime := field JUndefined "responseTime" req_body in
  let error := field JUndefined "error" req_body in
  if negb (truthy serverId) || negb (truthy serverName) || negb (truthy status)
  then
    (incr_errorCount s,
     mkResponse 400 (VObj [("error", VPrim (JStr "Missing required fields"))]))
  else
    let key := ToString serverId in
    let r := Server.mk serverName status responseTime error now
               (or_zero (ref_checksCount (servers_get s key)) + 1) in
    let s := servers_set key r s in
    let s := log ts "info" ("Health check for " +:+ ToString serverName)
               (VObj [("serverId", VPrim serverId); ("status", VPrim status);
                      ("responseTime", VPrim responseTime);
                      ("error", VPrim error)]) s in
    (s, mkResponse 200 (VObj [("success", VPrim (JBool true));
                              ("message", VPrim (JStr "Health check recorded"))])).

(** [app.get('/api/metrics')] *)
Definition get_metrics (now : Z) (ts : string) (t1 t2 : Z) (s : state)
    : state * response :=
  let s := incr_totalRequests s in
  let s := collectMetrics now ts s in
  (s, mkResponse 200 (VObj
    [("current", VObj
       [("timestamp", VPrim (JNum t1));
        ("uptime", VPrim (JNum (t2 - Stats.startTime (systemStats s))));
        ("totalRequests", VPrim (JNum (Stats.totalRequests (systemStats s))));
        ("errorCount", VPrim (JNum (Stats.errorCount (systemStats s))));
        ("servers", VObj (prod_map id (λ r, VObj (Server.fields r))
                            <$> map_to_list (servers s)));
        ("serverCount", VPrim (JNum (serverCount s)));
        ("healthyCount", VPrim (JNum (healthyCount s)))]);
     ("history", VArr (Sample.to_js <$> slice (-20) (history s)))])).

(** The element built by the arrow function of lines 144-148. *)
Definition history_point (server : jsref) (h : Sample.t) : jsval :=
  VObj [("timestamp", VPrim (JNum (Sample.timestamp h)));
        ("status", VPrim (ref_status server));
        ("responseTime", VPrim (ref_responseTime server))].

(** [app.get('/api/metrics/:serverId')] *)
Definition get_server_metrics (serverId : string) (s : state)
    : state * response :=
  let s := incr_totalRequests s in
  let server := servers_get s serverId in
  if negb (ref_truthy server) then
    (incr_errorCount s,
     mkResponse 404 (VObj [("error", VPrim (JStr "Server not found"))]))
  else
    (s, mkResponse 200 (VObj
      (("serverId", VPrim (JStr serverId)) :: ref_spread server ++
       [("history",
         VArr (slice (-20) (history_point server <$> history s)))]))).

(** The array [logs] of lines 160-170 for the contents of the file. *)
Definition read_logs (content : string) : list jsval :=
  List.filter (λ l, negb (is_null l))
    ((λ line, default (VPrim JNull) (JSON_parse line)) <$>
       List.filter (λ line, negb (blank line)) (split_lines content)).

(** [parseInt(req.query.limit) || 100] *)
Definition logs_limit (limit : option string) : Z :=
  match parseInt (param limit) with
  | Some n => if n =? 0 then 100 else n
  | None => 100
  end.

(** [filteredLogs] of lines 172-175. *)
Definition filter_logs (level : option string) (logs : list jsval) : list jsval :=
  if truthy (param level)
  then List.filter (λ l, is_string (ToString (param level)) (prop "level" l)) logs
  else logs.

(** [app.get('/api/logs')] *)
Definition get_logs (limit level : option string) (ts : string) (s : state)
    : state * response :=
  let s := incr_totalRequests s in
  let limit := logs_limit limit in
  match logFileContent s with
  | Some content =>
      let filteredLogs := filter_logs level (read_logs content) in
      (s, mkResponse 200 (VObj
        [("logs", VArr (slice (- limit) filteredLogs));
         ("total", VPrim (JNum (Z.of_nat (length filteredLogs))));
         ("filtered", VPrim (JBool (truthy (param level))))]))
  | None =>
      let s := incr_errorCount s in
      let s := log ts "error" "Failed to read logs" ENOENT s in
      (s, mkResponse 500 (VObj [("error", VPrim (JStr "Failed to read logs"))]))
  end.

(** [app.get('/api/health')] *)
Definition get_health (t1 t2 : Z) (s : state) : state * response :=
  let s := incr_totalRequests s in
  (s, mkResponse 200 (VObj
    [("status", VPrim (JStr "healthy")); ("timestamp", VPrim (JNum t1));
     ("uptime", VPrim (JNum (t2 - Stats.startTime (systemStats s))));
     ("version", VPrim (JStr "1.0.0"))])).

(** The callback of [app.listen]; [port] is [PORT] as the template prints it. *)
Definition listening (port ts1 ts2 : string) (now : Z) (ts3 : string)
    (s : state) : state :=
  let s := log ts1 "info"
             ("AI-First Monitoring server running on port " +:+ port)
             (VPrim JNull) s in
  let s := log ts2 "info" ("Monitoring URL: http://localhost:" +:+ port)
             (VPrim JNull) s in
  collectMetrics now ts3 s.

(** The error-handling middleware of the application. *)
Definition error_middleware (error : jsval) (ts : string) (s : state)
    : state * response :=
  let s := incr_errorCount s in
  let s := log ts "error" "Server error" error s in
  (s, mkResponse 500 (VObj [("error", VPrim (JStr "Internal server error"))])).

Variable PORT : string.

(** One reaction of the process; the timer and the listen callback answer
    nobody. *)
Definition step (s : state) (e : event) : state * option response :=
  match e with
  | PostHealthCheck b now ts => prod_map id Some (post_health_check b now ts s)
  | GetMetrics now ts t1 t2 => prod_map id Some (get_metrics now ts t1 t2 s)
  | GetServerMetrics k => prod_map id Some (get_server_metrics k s)
  | GetLogs limit level ts => prod_map id Some (get_logs limit level ts s)
  | GetHealth t1 t2 => prod_map id Some (get_health t1 t2 s)
  | Listening ts1 ts2 now ts3 => (listening PORT ts1 ts2 now ts3 s, None)
  | Interval now ts => (collectMetrics now ts s, None)
  | MiddlewareError error ts => prod_map id Some (error_middleware error ts s)
  end.

(** The state after a sequence of events, oldest first. *)
Definition run (s : state) (es : list event) : state :=
  fold_left (λ s e, (step s e).1) es s.

(** The states the process can be in. *)
Definition reachable (s : state) : Prop :=
  ∃ t0 t1 file es, s = run (metrics0 t0 t1 file) es.

(** [collectMetrics] called once per clock reading of [clock], in order. *)
Definition sample_many (clock : list (Z * string)) (s : state) : state :=
  fold_left (λ s c, collectMetrics c.1 c.2 s) clock s.

(** A report that passes the guard of line 84. *)
Definition valid_report (req_body : list (string * prim)) : bool :=
  truthy (field JUndefined "serverId" req_body)
  && truthy (field JUndefined "serverName" req_body)
  && truthy (field JUndefined "status" req_body).

(** The key of [metrics.servers] a report is stored under. *)
Definition report_key (req_body : list (string * prim)) : string :=
  ToString (field JUndefined "serverId" req_body).

(** The number of valid reports for the key [k] among the events. *)
Definition reports_for (k : string) (es : list event) : Z :=
  Z.of_nat (length (List.filter
    (λ e, match e with
          | PostHealthCheck b _ _ =>
              valid_report b && String.eqb (report_key b) k
          | _ => false
          end) es)).

(** The check counter stored for [k]: [metrics.servers[k]?.checksCount || 0]. *)
Definition stored_checksCount (s : state) (k : string) : Z :=
  or_zero (ref_checksCount (servers_get s k)).

(** The part of the state a sample is computed from. *)
Definition sampled (s : state) : gmap string Server.t * Z * Z * Z :=
  (servers s, Stats.startTime (systemStats s),
   Stats.totalRequests (systemStats s), Stats.errorCount (systemStats s)).

(** The reports an event adds for the key [k]. *)
Definition counts_for (k : string) (e : event) : Z :=
  match e with
  | PostHealthCheck b _ _ =>
      if valid_report b && String.eqb (report_key b) k then 1 else 0
  | _ => 0
  end.

(** ** Runs and their accounting *)

(** The answers along a run, oldest first; [None] where nobody is answered. *)
Fixpoint responses (s : state) (es : list event) : list (option response) :=
  match es with
  | [] => []
  | e :: es' => (step s e).2 :: responses (step s e).1 es'
  end.

(** The events that reach one of the five route handlers. *)
Definition is_request (e : event) : bool :=
  match e with
  | PostHealthCheck _ _ _ | GetMetrics _ _ _ _ | GetServerMetrics _
  | GetLogs _ _ _ | GetHealth _ _ => true
  | Listening _ _ _ _ | Interval _ _ | MiddlewareError _ _ => false
  end.

(** An answer with a status other than 200. *)
Definition is_error (r : option response) : bool :=
  match r with
  | Some r => negb (statusCode r =? 200)
  | None => false
  end.

(** The events that call [collectMetrics]. *)
Definition takes_sample (e : event) : bool :=
  match e with
  | GetMetrics _ _ _ _ | Listening _ _ _ _ | Interval _ _ => true
  | _ => false
  end.

(** The keys of the valid reports among the events, oldest first. *)
Definition reported_keys (es : list event) : list string :=
  omap (λ e, match e with
             | PostHealthCheck b _ _ =>
                 if valid_report b then Some (report_key b) else None
             | _ => None
             end) es.

(** The order of two samples by what they count. *)
Definition sample_le (a b : Sample.t) : Prop :=
  Sample.totalRequests a ≤ Sample.totalRequests b
  ∧ Sample.errorCount a ≤ Sample.errorCount b
  ∧ Sample.servers a ≤ Sample.servers b.

(** What the samples of the history satisfy in a state [s]: each one counts
    no more healthy servers than servers, none counts more than [s] does now,
    and they are in the order of their counts. *)
Definition history_ok (s : state) : Prop :=
  StronglySorted sample_le (history s)
  ∧ Forall (λ h, 0 ≤ Sample.healthyServers h ≤ Sample.servers h
                 ∧ Sample.totalRequests h ≤ Stats.totalRequests (systemStats s)
                 ∧ Sample.errorCount h ≤ Stats.errorCount (systemStats s)
                 ∧ Sample.servers h ≤ serverCount s) (history s).

(** ** The log file as text *)

(** The [logEntry] literal of [log]. *)
Definition logEntry (ts level message : string) (data : jsval) : jsval :=
  VObj [("timestamp", VPrim (JStr ts)); ("level", VPrim (JStr level));
        ("message", VPrim (JStr message)); ("data", data)].

(** What [fs.readFileSync] would read if the file were created empty. *)
Definition file_text (s : state) : string := default "" (logFileContent s).

Definition newline : string := String "010" "".


(** A text made of whole lines: empty, or ending in a line feed. *)
Definition whole_lines (text : string) : Prop :=
  text = "" ∨ ∃ front, text = front +:+ newline.

(** ** Lemmas on arrays *)

Lemma slice_last {A : Type} (start : Z) (l : list A) :
  start < 0 → slice start l = drop (length l - Z.to_nat (- start)) l.
Proof.
  intros Hn. unfold slice.
  destruct (Z.ltb_spec start 0) as [_|?]; [|lia].
  f_equal. lia.
Qed.

Lemma length_slice_last {A : Type} (start : Z) (l : list A) :
  start < 0 → length (slice start l) = Nat.min (Z.to_nat (- start)) (length l).
Proof. intros Hn. rewrite slice_last, length_drop by done. lia. Qed.

Lemma slice_fmap {A B : Type} (f : A → B) (start : Z) (l : list A) :
  slice start (f <$> l) = f <$> slice start l.
Proof. unfold slice. by rewrite length_fmap, fmap_drop. Qed.

Lemma push_history_last (h : Sample.t) (hist : list Sample.t) :
  (length hist ≤ 100)%nat →
  push_history h hist = slice (-100) (hist ++ [h]).
Proof.
  intros Hlen. unfold push_history.
  rewrite slice_last by lia. rewrite length_app. simpl.
  destruct (Z.ltb_spec 100 (Z.of_nat (length hist + 1))) as [Hgt|Hle].
  - f_equal. lia.
  - replace (length hist + 1 - Z.to_nat (- -100))%nat with 0%nat by lia. done.
Qed.

Lemma length_push_history (h : Sample.t) (hist : list Sample.t) :
  (length hist ≤ 100)%nat → (length (push_history h hist) ≤ 100)%nat.
Proof.
  intros Hlen. rewrite push_history_last, length_slice_last by lia. lia.
Qed.

Lemma slice_slice_app {A : Type} (start : Z) (l1 l2 : list A) :
  start < 0 → slice start (slice start l1 ++ l2) = slice start (l1 ++ l2).
Proof.
  intros Hn. rewrite !(slice_last start) by done.
  rewrite !length_app, length_drop, !drop_app, drop_drop, length_drop.
  f_equal; f_equal; lia.
Qed.

(** ** What each operation leaves alone *)

Lemma currentMetrics_sampled (now : Z) (s s' : state) :
  sampled s = sampled s' → currentMetrics now s = currentMetrics now s'.
Proof.
  unfold sampled, currentMetrics, serverCount, healthyCount.
  intros [= -> -> -> ->]. done.
Qed.

Lemma collectMetrics_sampled (now : Z) (ts : string) (s : state) :
  sampled (collectMetrics now ts s) = sampled s.
Proof. done. Qed.

Lemma collectMetrics_history (now : Z) (ts : string) (s : state) :
  history (collectMetrics now ts s)
  = push_history (currentMetrics now s) (history s).
Proof. done. Qed.

Lemma run_snoc (s : state) (es : list event) (e : event) :
  run s (es ++ [e]) = (step (run s es) e).1.
Proof. unfold run. by rewrite fold_left_app. Qed.

Lemma step_history_bound (s : state) (e : event) :
  (length (history s) ≤ 100)%nat →
  (length (history (step s e).1) ≤ 100)%nat.
Proof.
  intros Hlen. destruct e; simpl.
  - unfold post_health_check, servers_set.
    repeat case_match; simpl; done.
  - by apply length_push_history.
  - unfold get_server_metrics. case_match; done.
  - unfold get_logs. case_match; done.
  - done.
  - by apply length_push_history.
  - by apply length_push_history.
  - done.
Qed.

Lemma reachable_history_bound (s : state) :
  reachable s → (length (history s) ≤ 100)%nat.
Proof.
  intros (t0 & t1 & file & es & ->).
  induction es as [|e es IH] using rev_ind; [simpl; lia|].
  rewrite run_snoc. by apply step_history_bound.
Qed.

Lemma sample_many_history (s0 : state) (clock : list (Z * string)) :
  ∀ s, sampled s = sampled s0 → (length (history s) ≤ 100)%nat →
    history (sample_many clock s)
    = slice (-100) (history s ++ ((λ c, currentMetrics c.1 s0) <$> clock)).
Proof.
  induction clock as [|c clock IH]; intros s Hs Hlen; simpl.
  - rewrite app_nil_r, slice_last by lia.
    replace (length (history s) - Z.to_nat (- -100))%nat with 0%nat by lia.
    done.
  - unfold sample_many in *. simpl. rewrite IH.
    + rewrite collectMetrics_history, push_history_last by done.
      rewrite slice_slice_app by lia. rewrite <- app_assoc. simpl.
      by rewrite (currentMetrics_sampled _ s s0).
    + by rewrite collectMetrics_sampled.
    + rewrite collectMetrics_history. by apply length_push_history.
Qed.

Lemma healthy_filter (l : list (string * Server.t)) :
  length (List.filter (λ r, strict_eq (Server.status r) (JStr "healthy")) l.*2)
  = length (filter (λ kv : string * Server.t,
                      Server.status kv.2 = JStr "healthy") l).
Proof.
  induction l as [|[k r] l IH]; [done|].
  rewrite filter_cons. simpl. unfold strict_eq at 1.
  case_bool_decide; case_decide; simpl in *; try done.
  f_equal. exact IH.
Qed.

Lemma healthyCount_size (s : state) :
  healthyCount s
  = Z.of_nat (size (filter (λ kv : string * Server.t,
                              Server.status kv.2 = JStr "healthy") (servers s))).
Proof.
  unfold healthyCount. rewrite healthy_filter. f_equal.
  rewrite map_filter_alt, <- length_map_to_list.
  symmetry. apply Permutation_length, map_to_list_to_map.
  apply NoDup_fmap_fst.
  - intros k x y Hx%list_elem_of_filter Hy%list_elem_of_filter.
    destruct Hx as [_ Hx%elem_of_map_to_list], Hy as [_ Hy%elem_of_map_to_list].
    congruence.
  - apply NoDup_filter, NoDup_map_to_list.
Qed.

Lemma serverCount_size (s : state) : serverCount s = Z.of_nat (size (servers s)).
Proof. unfold serverCount. by rewrite length_fmap, length_map_to_list. Qed.

(** ** The rolling history *)

(** C4: in every state the process can reach the retained history holds at
    most 100 samples; a sample taken at capacity evicts the oldest one; after
    150 successive samples the history is exactly the last 100 of them, in
    the order they were taken; and GET /api/metrics returns the last
    min(20, retained) samples of the history, oldest first, never more than
    min(20, 100). *)
Theorem history_is_a_bounded_window (s : state) :
  reachable s →
  (length (history s) ≤ 100)%nat
  ∧ (∀ now ts, length (history s) = 100%nat →
       history (collectMetrics now ts s)
       = drop 1 (history s) ++ [currentMetrics now s])
  ∧ (∀ clock, length clock = 150%nat →
       history (sample_many clock s)
       = (λ c, currentMetrics c.1 s) <$> drop 50 clock)
  ∧ (∀ now ts t1 t2,
       let r := get_metrics now ts t1 t2 s in
       let window := drop (length (history r.1) - 20) (history r.1) in
       prop "history" (body r.2) = VArr (Sample.to_js <$> window)
       ∧ (length window ≤ Nat.min 20 100)%nat
       ∧ length window = Nat.min 20 (length (history r.1))).
Proof.
  intros Hreach. pose proof (reachable_history_bound s Hreach) as Hlen.
  split_and!.
  - done.
  - intros now ts H100. rewrite collectMetrics_history. unfold push_history.
    rewrite length_app, H100. simpl. by rewrite drop_app_le by lia.
  - intros clock Hclock. rewrite (sample_many_history s) by done.
    rewrite slice_last by lia. rewrite length_app, length_fmap, Hclock.
    change (Z.to_nat (- -100)) with 100%nat.
    rewrite drop_app_ge; [|lia]. rewrite <- fmap_drop. do 2 f_equal. lia.
  - intros now ts t1 t2 r window. split_and!.
    + unfold r, window. simpl. by rewrite slice_last by lia.
    + unfold window. rewrite length_drop. lia.
    + unfold window. rewrite length_drop. lia.
Qed.

(** C6: a GET /api/metrics on a reachable state appends one fresh sample to
    the history, evicting the oldest one at capacity 100, so that the history
    grows by one entry until it holds 100; the table of server records, its
    prototype, the error counter and the start time are unchanged and the
    request counter grows by one. *)
Theorem metrics_read_takes_a_sample (s : state) (now : Z) (ts : string)
    (t1 t2 : Z) :
  reachable s →
  let s' := (get_metrics now ts t1 t2 s).1 in
  let h := currentMetrics now (incr_totalRequests s) in
  history s' = (if decide (length (history s) < 100)%nat
                then history s ++ [h] else drop 1 (history s) ++ [h])
  ∧ length (history s') = Nat.min 100 (length (history s) + 1)
  ∧ servers s' = servers s
  ∧ servers_proto s' = servers_proto s
  ∧ Stats.totalRequests (systemStats s')
    = Stats.totalRequests (systemStats s) + 1
  ∧ Stats.errorCount (systemStats s') = Stats.errorCount (systemStats s)
  ∧ Stats.startTime (systemStats s') = Stats.startTime (systemStats s).
Proof.
  intros Hreach. pose proof (reachable_history_bound s Hreach) as Hlen.
  simpl. split_and!; try done.
  - unfold push_history. rewrite length_app. simpl.
    case_decide; destruct (Z.ltb_spec 100 (Z.of_nat (length (history s) + 1)));
      try lia; [done|].
    by rewrite drop_app_le by lia.
  - rewrite push_history_last, length_slice_last by (simpl; lia).
    rewrite length_app. simpl. lia.
Qed.

(** ** The healthy count *)

Lemma healthy_entries (l : list (string * Server.t)) :
  length (List.filter (λ e : string * jsval,
                         is_string "healthy" (prop "status" e.2))
            (prod_map id (λ r, VObj (Server.fields r)) <$> l))
  = length (List.filter (λ r, strict_eq (Server.status r) (JStr "healthy"))
              l.*2).
Proof.
  induction l as [|[k r] l IH]; [done|].
  rewrite !fmap_cons. simpl List.filter.
  change (is_string "healthy"
            (prop "status" (prod_map id (λ r, VObj (Server.fields r)) (k, r)).2))
    with (strict_eq (Server.status r) (JStr "healthy")).
  destruct (strict_eq (Server.status r) (JStr "healthy")); simpl;
    by rewrite IH.
Qed.

(** C7: in the snapshot returned by GET /api/metrics, [healthyCount] is at
    most [serverCount]; [serverCount] is the number of entries of the table
    [servers] of the snapshot and [healthyCount] the number of those entries
    whose stored status is exactly the string [healthy]. *)
Theorem healthyCount_le_serverCount (s : state) (now : Z) (ts : string)
    (t1 t2 : Z) :
  let current := prop "current" (body (get_metrics now ts t1 t2 s).2) in
  ∃ (entries : list (string * jsval)) (healthy count : nat),
    prop "servers" current = VObj entries
    ∧ prop "healthyCount" current = VPrim (JNum (Z.of_nat healthy))
    ∧ prop "serverCount" current = VPrim (JNum (Z.of_nat count))
    ∧ (healthy ≤ count)%nat
    ∧ count = length entries
    ∧ healthy = length (List.filter
                          (λ e, is_string "healthy" (prop "status" e.2))
                          entries)
    ∧ entries = (prod_map id (λ r, VObj (Server.fields r))
                   <$> map_to_list (servers s))
    ∧ count = size (servers s)
    ∧ healthy = size (filter (λ kv : string * Server.t,
                                Server.status kv.2 = JStr "healthy")
                             (servers s)).
Proof.
  simpl. eexists _, _, _. split_and!.
  - done.
  - change (healthyCount _) with (healthyCount s).
    by rewrite healthyCount_size.
  - change (serverCount _) with (serverCount s).
    by rewrite serverCount_size.
  - apply map_size_filter.
  - by rewrite length_fmap, length_map_to_list.
  - rewrite healthy_entries.
    apply Nat2Z.inj. rewrite <- healthyCount_size. done.
  - done.
  - done.
  - done.
Qed.

(** ** The table of server records *)

Lemma or_zero_Some (n : Z) : or_zero (Some n) = n.
Proof. simpl. by destruct (Z.eqb_spec n 0). Qed.

Lemma servers_get_ext (s s' : state) (k : string) :
  servers s = servers s' → servers_proto s = servers_proto s' →
  servers_get s k = servers_get s' k.
Proof. unfold servers_get. by intros -> ->. Qed.

Lemma servers_get_set (key : string) (r : Server.t) (s : state) :
  servers_get (servers_set key r s) key = RServer r.
Proof.
  unfold servers_set.
  destruct (String.eqb_spec key "__proto__") as [->|Hkey]; simpl.
  - case_bool_decide as Hown; unfold servers_get; simpl.
    + by rewrite Hown.
    + by rewrite lookup_insert_eq.
  - unfold servers_get. simpl. by rewrite lookup_insert_eq.
Qed.

(** Reading a key that has no own property never yields a record, except
    through the accessor [__proto__]. *)
Lemma inherited_checksCount (s : state) (k : string) :
  servers s !! k = None → k ≠ "__proto__" →
  ref_checksCount (servers_get s k) = None.
Proof.
  intros Hown Hk. unfold servers_get. rewrite Hown.
  destruct (servers_proto s ≫= _); [done|].
  destruct (String.eqb_spec k "__proto__"); [done|].
  by case_bool_decide.
Qed.

Lemma stored_checksCount_set_ne (key k : string) (r : Server.t) (s : state) :
  k ≠ key →
  stored_checksCount (servers_set key r s) k = stored_checksCount s k.
Proof.
  intros Hne. unfold stored_checksCount, servers_set.
  destruct (String.eqb_spec key "__proto__") as [->|Hkey]; simpl.
  - case_bool_decide as Hown.
    + destruct (servers s !! k) as [r'|] eqn:Hk.
      * unfold servers_get. simpl. by rewrite Hk.
      * by rewrite !inherited_checksCount.
    + f_equal. f_equal. unfold servers_get. simpl.
      by rewrite lookup_insert_ne.
  - f_equal. f_equal. unfold servers_get. simpl.
    by rewrite lookup_insert_ne.
Qed.

Lemma stored_checksCount_ext (s s' : state) (k : string) :
  servers s = servers s' → servers_proto s = servers_proto s' →
  stored_checksCount s k = stored_checksCount s' k.
Proof.
  intros H1 H2. unfold stored_checksCount. by rewrite (servers_get_ext s s').
Qed.

Lemma reports_for_snoc (k : string) (es : list event) (e : event) :
  reports_for k (es ++ [e]) = reports_for k es + counts_for k e.
Proof.
  unfold reports_for. rewrite List.filter_app, length_app. simpl.
  destruct e; simpl; try lia.
  destruct (valid_report _ && _); simpl; lia.
Qed.

Lemma post_health_check_invalid (b : list (string * prim)) (now : Z)
    (ts : string) (s : state) :
  valid_report b = false →
  post_health_check b now ts s
  = (incr_errorCount (incr_totalRequests s),
     mkResponse 400 (VObj [("error", VPrim (JStr "Missing required fields"))])).
Proof.
  unfold valid_report, post_health_check. intros Hb.
  destruct (truthy (field JUndefined "serverId" b)),
           (truthy (field JUndefined "serverName" b)),
           (truthy (field JUndefined "status" b)); done.
Qed.

Lemma post_health_check_valid (b : list (string * prim)) (now : Z)
    (ts : string) (s : state) :
  valid_report b = true →
  servers_get (post_health_check b now ts s).1 (report_key b)
  = RServer (Server.mk (field JUndefined "serverName" b)
                       (field JUndefined "status" b)
                       (field JUndefined "responseTime" b)
                       (field JUndefined "error" b) now
                       (stored_checksCount s (report_key b) + 1))
  ∧ ∀ k, k ≠ report_key b →
      stored_checksCount (post_health_check b now ts s).1 k
      = stored_checksCount s k.
Proof.
  unfold valid_report, post_health_check, report_key. intros Hb.
  destruct (truthy (field JUndefined "serverId" b)); [|done].
  destruct (truthy (field JUndefined "serverName" b)); [|done].
  destruct (truthy (field JUndefined "status" b)); [|done].
  simpl. split.
  - erewrite servers_get_ext; [apply servers_get_set|done..].
  - intros k Hk.
    match goal with
    | |- context [servers_set ?key ?r ?s0] =>
        rewrite (stored_checksCount_ext _ (servers_set key r s0) k) by done;
        rewrite stored_checksCount_set_ne by done
    end.
    by apply stored_checksCount_ext.
Qed.

Lemma step_stored_checksCount (s : state) (e : event) (k : string) :
  stored_checksCount (step s e).1 k = stored_checksCount s k + counts_for k e.
Proof.
  destruct e as [b now ts| | | | | | |]; simpl.
  - destruct (valid_report b) eqn:Hb; simpl.
    + destruct (post_health_check_valid b now ts s Hb) as [Hget Hother].
      destruct (String.eqb_spec (report_key b) k) as [<-|Hk].
      * unfold stored_checksCount at 1. rewrite Hget. unfold ref_checksCount.
        by rewrite or_zero_Some.
      * rewrite Hother by done. lia.
    + rewrite post_health_check_invalid by done. simpl.
      rewrite Z.add_0_r. by apply stored_checksCount_ext.
  - rewrite Z.add_0_r. by apply stored_checksCount_ext.
  - rewrite Z.add_0_r. unfold get_server_metrics.
    case_match; by apply stored_checksCount_ext.
  - rewrite Z.add_0_r. unfold get_logs.
    case_match; by apply stored_checksCount_ext.
  - rewrite Z.add_0_r. by apply stored_checksCount_ext.
  - rewrite Z.add_0_r. by apply stored_checksCount_ext.
  - rewrite Z.add_0_r. by apply stored_checksCount_ext.
  - rewrite Z.add_0_r. by apply stored_checksCount_ext.
Qed.

Lemma run_stored_checksCount (s : state) (es : list event) (k : string) :
  stored_checksCount (run s es) k = stored_checksCount s k + reports_for k es.
Proof.
  induction es as [|e es IH] using rev_ind.
  - unfold reports_for. simpl. lia.
  - rewrite run_snoc, step_stored_checksCount, IH, reports_for_snoc. lia.
Qed.

Lemma stored_checksCount_record (s : state) (k : string) :
  stored_checksCount s k ≠ 0 →
  ∃ r, servers_get s k = RServer r
       ∧ Server.checksCount r = stored_checksCount s k.
Proof.
  unfold stored_checksCount. destruct (servers_get s k) as [p|r|f|]; try done.
  intros _. exists r. unfold ref_checksCount. by rewrite or_zero_Some.
Qed.

Lemma stored_checksCount_metrics0 (t0 t1 : Z) (file : option string)
    (k : string) :
  stored_checksCount (metrics0 t0 t1 file) k = 0.
Proof.
  unfold stored_checksCount, servers_get. simpl. rewrite lookup_empty.
  by repeat case_match.
Qed.

(** C5: after any sequence of events from the start of the process, the
    check counter stored for a key equals the number N of valid reports for
    that key in the sequence, whatever other events are interleaved; for
    N ≥ 1 the key holds a record whose [checksCount] is N; and no event
    makes the counter of a key smaller. *)
Theorem checksCount_counts_reports (t0 t1 : Z) (file : option string)
    (es : list event) (k : string) :
  let s := run (metrics0 t0 t1 file) es in
  stored_checksCount s k = reports_for k es
  ∧ (1 ≤ reports_for k es →
       ∃ r, servers_get s k = RServer r
            ∧ Server.checksCount r = reports_for k es)
  ∧ (∀ e, stored_checksCount s k ≤ stored_checksCount (step s e).1 k).
Proof.
  intros s.
  assert (stored_checksCount s k = reports_for k es) as Hs.
  { unfold s. rewrite run_stored_checksCount, stored_checksCount_metrics0. lia. }
  split_and!.
  - done.
  - intros HN. rewrite <- Hs. apply stored_checksCount_record. lia.
  - intros e. rewrite step_stored_checksCount.
    destruct e; simpl; try lia. case_match; lia.
Qed.

(** ** Reports *)

(** C1, amended: the fields of the request body the handler reads are
    [serverId] and [serverName].  A report
    [{serverId:"github", serverName:"GitHub MCP", status:"healthy",
    responseTime:42}] for a key without an earlier report is answered 200
    with [success:true], and the following GET /api/metrics/github is
    answered 200 with a record that has [checksCount:1], [status:"healthy"]
    and [responseTime:42]. *)
Theorem report_then_detail (s : state) (now : Z) (ts : string) :
  stored_checksCount s "github" = 0 →
  let report := [("serverId", JStr "github"); ("serverName", JStr "GitHub MCP");
                 ("status", JStr "healthy"); ("responseTime", JNum 42)] in
  let posted := post_health_check report now ts s in
  let detail := (get_server_metrics "github" posted.1).2 in
  statusCode posted.2 = 200
  ∧ prop "success" (body posted.2) = VPrim (JBool true)
  ∧ statusCode detail = 200
  ∧ prop "checksCount" (body detail) = VPrim (JNum 1)
  ∧ prop "status" (body detail) = VPrim (JStr "healthy")
  ∧ prop "responseTime" (body detail) = VPrim (JNum 42).
Proof.
  intros Hfresh report posted detail.
  destruct (post_health_check_valid report now ts s eq_refl) as [Hget _].
  fold posted in Hget. change (report_key report) with "github" in Hget.
  rewrite Hfresh in Hget.
  assert (servers_get (incr_totalRequests posted.1) "github"
          = servers_get posted.1 "github") as Hincr by by apply servers_get_ext.
  unfold detail, get_server_metrics. rewrite Hincr, Hget. done.
Qed.

(** C2, amended: a record is created by the first valid report naming a
    key, with the name, status, response time and error of that report, the
    time of the call and a check counter of 1; its status is the reported
    one.  A query naming a key, seen or not, leaves the table of records as
    it is. *)
Theorem record_created_by_first_report (s : state)
    (report : list (string * prim)) (now : Z) (ts : string) (k : string) :
  valid_report report = true →
  stored_checksCount s (report_key report) = 0 →
  servers_get (post_health_check report now ts s).1 (report_key report)
  = RServer (Server.mk (field JUndefined "serverName" report)
                       (field JUndefined "status" report)
                       (field JUndefined "responseTime" report)
                       (field JUndefined "error" report) now 1)
  ∧ servers (get_server_metrics k s).1 = servers s
  ∧ servers_proto (get_server_metrics k s).1 = servers_proto s.
Proof.
  intros Hvalid Hfresh.
  destruct (post_health_check_valid report now ts s Hvalid) as [Hget _].
  rewrite Hfresh in Hget. split; [done|].
  unfold get_server_metrics. by case_match.
Qed.

(** C3, amended: a report in which [serverId], [serverName] or [status] is
    missing or empty is answered 400; the error counter and the request
    counter each grow by exactly 1; no record is created or modified and
    nothing else changes: not the history, the start time, the time of the
    last update or the log file. *)
Theorem invalid_report_is_rejected (s : state) (report : list (string * prim))
    (now : Z) (ts : string) (f : string) :
  f ∈ ["serverId"; "serverName"; "status"] →
  field JUndefined f report = JUndefined ∨ field JUndefined f report = JStr "" →
  let r := post_health_check report now ts s in
  statusCode r.2 = 400
  ∧ Stats.errorCount (systemStats r.1) = Stats.errorCount (systemStats s) + 1
  ∧ Stats.totalRequests (systemStats r.1)
    = Stats.totalRequests (systemStats s) + 1
  ∧ servers r.1 = servers s
  ∧ servers_proto r.1 = servers_proto s
  ∧ history r.1 = history s
  ∧ logFileContent r.1 = logFileContent s
  ∧ Stats.startTime (systemStats r.1) = Stats.startTime (systemStats s)
  ∧ Stats.lastUpdate (systemStats r.1) = Stats.lastUpdate (systemStats s).
Proof.
  intros Hf Hmissing r.
  assert (truthy (field JUndefined f report) = false) as Hfalsy
    by by destruct Hmissing as [-> | ->].
  assert (valid_report report = false) as Hinvalid.
  { unfold valid_report. set_unfold.
    destruct Hf as [->|[->|[->|[]]]]; rewrite Hfalsy;
      by repeat (simpl; rewrite ?andb_false_r). }
  unfold r. by rewrite post_health_check_invalid.
Qed.

(** ** Service detail *)

(** C8, at the key [constructor] on a fresh process: no report was ever
    made for it, yet GET /api/metrics/constructor is answered 200, not 404,
    because the table inherits a property of that name; the error counter is
    not incremented. *)
Theorem unseen_constructor_is_found (t0 t1 : Z) (file : option string) :
  let r := get_server_metrics "constructor" (metrics0 t0 t1 file) in
  servers (metrics0 t0 t1 file) !! "constructor" = None
  ∧ servers_get (metrics0 t0 t1 file) "constructor" = RFunction "constructor"
  ∧ statusCode r.2 = 200
  ∧ body r.2 = VObj [("serverId", VPrim (JStr "constructor"));
                     ("history", VArr [])]
  ∧ Stats.errorCount (systemStats r.1) = 0.
Proof. done. Qed.

(** A key that has no own record and inherits nothing is not found, and the
    state changes by the two counters only. *)
Lemma unknown_key_not_found (s : state) (k : string) :
  servers_get s k = RPrim JUndefined →
  get_server_metrics k s
  = (incr_errorCount (incr_totalRequests s),
     mkResponse 404 (VObj [("error", VPrim (JStr "Server not found"))])).
Proof.
  intros Hk. unfold get_server_metrics.
  rewrite (servers_get_ext (incr_totalRequests s) s) by done.
  by rewrite Hk.
Qed.

(** The same on any state whose table has its initial prototype: a key
    without a record is not found unless it names a property of
    [Object.prototype], and then it is found. *)
Lemma plain_unseen_key_not_found (s : state) (k : string) :
  servers s !! k = None → servers_proto s = None →
  k ∉ "__proto__" :: Object_prototype_functions →
  statusCode (get_server_metrics k s).2 = 404
  ∧ servers (get_server_metrics k s).1 = servers s.
Proof.
  intros Hown Hproto Hk.
  rewrite unknown_key_not_found; [done|].
  unfold servers_get. rewrite Hown, Hproto. simpl.
  destruct (String.eqb_spec k "__proto__") as [->|_].
  { destruct Hk. apply list_elem_of_here. }
  case_bool_decide; [|done].
  destruct Hk. by apply list_elem_of_further.
Qed.

Lemma inherited_key_is_found (s : state) (k : string) :
  servers s !! k = None → servers_proto s = None →
  k ∈ "__proto__" :: Object_prototype_functions →
  statusCode (get_server_metrics k s).2 = 200.
Proof.
  intros Hown Hproto Hk. unfold get_server_metrics.
  rewrite (servers_get_ext (incr_totalRequests s) s) by done.
  unfold servers_get. rewrite Hown, Hproto. simpl.
  destruct (String.eqb_spec k "__proto__") as [->|Hne]; [done|].
  case_bool_decide; [done|].
  by apply elem_of_cons in Hk as [?|?].
Qed.

(** C9: for a key that holds a record, GET /api/metrics/:serverId is
    answered 200 and its [history] array has one point per sample among the
    last 20 of the system history, at most 20 points; each point carries the
    time stamp of its sample and the status and response time the record has
    at the time of the call. *)
Theorem detail_history_reuses_current_status (s : state) (k : string)
    (r : Server.t) :
  servers_get s k = RServer r →
  let resp := (get_server_metrics k s).2 in
  let window := drop (length (history s) - 20) (history s) in
  statusCode resp = 200
  ∧ prop "status" (body resp) = VPrim (Server.status r)
  ∧ prop "history" (body resp)
    = VArr ((λ h, VObj [("timestamp", VPrim (JNum (Sample.timestamp h)));
                        ("status", VPrim (Server.status r));
                        ("responseTime", VPrim (Server.responseTime r))])
            <$> window)
  ∧ (length window ≤ 20)%nat.
Proof.
  intros Hk resp window. unfold resp, get_server_metrics.
  rewrite (servers_get_ext (incr_totalRequests s) s) by done.
  rewrite Hk. simpl. split_and!; try done.
  - by rewrite slice_fmap, slice_last by lia.
  - unfold window. rewrite length_drop. lia.
Qed.

(** ** The log query *)

Lemma logs_limit_positive (limit : option string) :
  (parseInt (param limit) = None ∨ ∃ n, parseInt (param limit) = Some n ∧ 0 ≤ n) →
  0 < logs_limit limit.
Proof.
  unfold logs_limit. intros [-> | (n & -> & Hn)]; [done|].
  destruct (Z.eqb_spec n 0); lia.
Qed.

(** C10, amended: when the log file can be read, a [limit] parameter that
    parses to [NaN] or to 0 falls back to 100, and the response holds the
    last min(100, available) entries; more generally a [limit] that parses
    to [NaN] or to a number that is not negative gives a positive limit L
    and the response holds the last min(L, available) entries, never zero
    entries while some are available. *)
Theorem logs_limit_falls_back (limit level : option string) (ts : string)
    (s : state) (content : string) :
  logFileContent s = Some content →
  (parseInt (param limit) = None ∨ ∃ n, parseInt (param limit) = Some n ∧ 0 ≤ n) →
  let available := filter_logs level (read_logs content) in
  let resp := (get_logs limit level ts s).2 in
  let returned := drop (length available - Z.to_nat (logs_limit limit)) available in
  (parseInt (param limit) = None ∨ parseInt (param limit) = Some 0 →
     logs_limit limit = 100)
  ∧ statusCode resp = 200
  ∧ prop "logs" (body resp) = VArr returned
  ∧ length returned = Nat.min (Z.to_nat (logs_limit limit)) (length available)
  ∧ (available ≠ [] → returned ≠ []).
Proof.
  intros Hfile Hlimit available resp returned.
  pose proof (logs_limit_positive limit Hlimit) as Hpos.
  assert (length returned
          = Nat.min (Z.to_nat (logs_limit limit)) (length available)) as Hlen.
  { unfold returned. rewrite length_drop. lia. }
  split_and!.
  - unfold logs_limit. by intros [-> | ->].
  - unfold resp, get_logs. simpl. by rewrite Hfile.
  - unfold resp, get_logs. simpl. rewrite Hfile. simpl.
    rewrite slice_last by lia. by rewrite Z.opp_involutive.
  - done.
  - intros Havail Hnil. rewrite Hnil in Hlen. simpl in Hlen.
    destruct available; [done|]. simpl in Hlen. lia.
Qed.

(** ** Accounting over a run *)

Lemma run_cons (s : state) (e : event) (es : list event) :
  run s (e :: es) = run (step s e).1 es.
Proof. done. Qed.

Lemma step_counters (s : state) (e : event) :
  Stats.totalRequests (systemStats (step s e).1)
  = Stats.totalRequests (systemStats s) + (if is_request e then 1 else 0)
  ∧ Stats.errorCount (systemStats (step s e).1)
    = Stats.errorCount (systemStats s)
      + (if is_error (step s e).2 then 1 else 0)
  ∧ Stats.startTime (systemStats (step s e).1)
    = Stats.startTime (systemStats s).
Proof.
  destruct e as [b now ts| | | | | | |]; simpl.
  - destruct (valid_report b) eqn:Hb.
    + unfold post_health_check.
      unfold valid_report in Hb. apply andb_prop in Hb as [Hb ->].
      apply andb_prop in Hb as [-> ->]. simpl.
      unfold servers_set. case_match; simpl; split_and!; lia.
    + rewrite post_health_check_invalid by done. simpl. split_and!; lia.
  - split_and!; lia.
  - unfold get_server_metrics. case_match; simpl; split_and!; lia.
  - unfold get_logs. case_match; simpl; split_and!; lia.
  - split_and!; lia.
  - split_and!; lia.
  - split_and!; lia.
  - split_and!; lia.
Qed.

Lemma run_counters (es : list event) :
  ∀ s,
    Stats.totalRequests (systemStats (run s es))
    = Stats.totalRequests (systemStats s)
      + Z.of_nat (length (List.filter is_request es))
    ∧ Stats.errorCount (systemStats (run s es))
      = Stats.errorCount (systemStats s)
        + Z.of_nat (length (List.filter is_error (responses s es)))
    ∧ Stats.startTime (systemStats (run s es))
      = Stats.startTime (systemStats s).
Proof.
  induction es as [|e es IH]; intros s.
  - simpl. split_and!; lia.
  - rewrite run_cons. destruct (IH (step s e).1) as (-> & -> & ->).
    destruct (step_counters s e) as (-> & -> & ->). simpl.
    destruct (is_request e), (is_error (step s e).2); simpl; split_and!; lia.
Qed.


(** X2: at any point of a run GET /api/health is answered 200 with status
    [healthy] and an uptime counted from the start time of the process; it
    changes the request counter and nothing else. *)
Theorem health_reports_uptime (t0 t1 : Z) (file : option string)
    (es : list event) (ta tb : Z) :
  let s := run (metrics0 t0 t1 file) es in
  let r := get_health ta tb s in
  statusCode r.2 = 200
  ∧ prop "status" (body r.2) = VPrim (JStr "healthy")
  ∧ prop "timestamp" (body r.2) = VPrim (JNum ta)
  ∧ prop "uptime" (body r.2) = VPrim (JNum (tb - t0))
  ∧ r.1 = incr_totalRequests s.
Proof.
  intros s r. destruct (run_counters es (metrics0 t0 t1 file)) as (_ & _ & H3).
  simpl in *. fold s in H3. by rewrite H3.
Qed.

(** ** The table over a run *)

Lemma post_health_check_servers (b : list (string * prim)) (now : Z)
    (ts : string) (s : state) :
  valid_report b = true →
  ∃ r, Server.status r = field JUndefined "status" b
       ∧ servers (post_health_check b now ts s).1
         = (if String.eqb (report_key b) "__proto__"
               && bool_decide (servers s !! report_key b = None)
            then servers s else <[report_key b := r]> (servers s)).
Proof.
  unfold valid_report, post_health_check, report_key. intros Hb.
  apply andb_prop in Hb as [Hb ->]. apply andb_prop in Hb as [-> ->]. simpl.
  eexists. split; [|unfold servers_set; simpl; by case_match]. done.
Qed.

Lemma step_servers (s : state) (e : event) :
  reported_keys [e] = [] → servers (step s e).1 = servers s.
Proof.
  destruct e as [b now ts| | | | | | |]; simpl; try done.
  - unfold reported_keys. simpl.
    destruct (valid_report b) eqn:Hb; [done|].
    by rewrite post_health_check_invalid.
  - intros _. unfold get_server_metrics. by case_match.
  - intros _. unfold get_logs. by case_match.
Qed.

Lemma step_dom (s : state) (e : event) :
  dom (servers (step s e).1)
  = dom (servers s)
    ∪ list_to_set (filter (λ k, k ≠ "__proto__") (reported_keys [e])).
Proof.
  destruct (reported_keys [e]) as [|k ks] eqn:Hkeys.
  { rewrite step_servers by done. rewrite filter_nil, list_to_set_nil.
    by rewrite union_empty_r_L. }
  destruct e as [b now ts| | | | | | |]; try done.
  unfold reported_keys in Hkeys. simpl in Hkeys.
  destruct (valid_report b) eqn:Hb; [|done].
  injection Hkeys as <- <-. simpl.
  destruct (post_health_check_servers b now ts s Hb) as (r & _ & ->).
  rewrite filter_cons, filter_nil.
  destruct (String.eqb_spec (report_key b) "__proto__") as [Hk|Hk]; simpl.
  - rewrite decide_False by (by intros []).
    rewrite list_to_set_nil, union_empty_r_L.
    case_bool_decide as Hown; [done|].
    rewrite dom_insert_lookup_L; [done|].
    by destruct (servers s !! report_key b).
  - rewrite decide_True by done. rewrite dom_insert_L.
    rewrite list_to_set_cons, list_to_set_nil, union_empty_r_L.
    by rewrite (comm_L (∪)).
Qed.

Lemma reported_keys_cons (e : event) (es : list event) :
  reported_keys (e :: es) = reported_keys [e] ++ reported_keys es.
Proof. unfold reported_keys. simpl. by case_match. Qed.

Lemma run_dom (es : list event) :
  ∀ s, dom (servers (run s es))
       = dom (servers s)
         ∪ list_to_set (filter (λ k, k ≠ "__proto__") (reported_keys es)).
Proof.
  induction es as [|e es IH]; intros s.
  - simpl. by rewrite union_empty_r_L.
  - rewrite (reported_keys_cons e es), run_cons, IH, step_dom.
    rewrite filter_app, list_to_set_app_L. by rewrite (assoc_L (∪)).
Qed.

(** X3: from the start of the process the table of records holds exactly
    the keys of the valid reports received so far, the key [__proto__]
    excepted, which never becomes an entry; [serverCount] is the number of
    those distinct keys. *)
Theorem table_holds_the_reported_keys (t0 t1 : Z) (file : option string)
    (es : list event) :
  let s := run (metrics0 t0 t1 file) es in
  let keys : gset string :=
    list_to_set (filter (λ k, k ≠ "__proto__") (reported_keys es)) in
  dom (servers s) = keys
  ∧ serverCount s = Z.of_nat (size keys)
  ∧ servers s !! "__proto__" = None.
Proof.
  intros s keys.
  assert (dom (servers s) = keys) as Hdom.
  { unfold s. rewrite run_dom. simpl. by rewrite dom_empty_L, union_empty_l_L. }
  split_and!.
  - done.
  - by rewrite serverCount_size, <- Hdom, size_dom.
  - apply not_elem_of_dom. rewrite Hdom. unfold keys.
    rewrite elem_of_list_to_set, list_elem_of_filter. by intros [? _].
Qed.

(** X4: no event removes a record, and a record is changed only by a valid
    report for its own key: every other event, a valid report for another
    key included, leaves it as it is. *)
Theorem records_change_only_by_their_reports (s : state) (e : event)
    (k : string) (r : Server.t) :
  servers s !! k = Some r →
  is_Some (servers (step s e).1 !! k)
  ∧ (counts_for k e = 0 → servers (step s e).1 !! k = Some r).
Proof.
  intros Hk.
  destruct (reported_keys [e]) as [|k' ks] eqn:Hkeys.
  { rewrite step_servers by done. by rewrite Hk. }
  destruct e as [b now ts| | | | | | |]; try done.
  unfold reported_keys in Hkeys. simpl in Hkeys.
  destruct (valid_report b) eqn:Hb; [|done]. clear Hkeys.
  simpl. rewrite Hb. simpl.
  destruct (post_health_check_servers b now ts s Hb) as (r' & _ & ->).
  destruct (String.eqb_spec (report_key b) k) as [->|Hne].
  - rewrite Hk. rewrite bool_decide_false by done. rewrite andb_false_r.
    rewrite lookup_insert_eq. split; [by eexists|lia].
  - case_match; [by rewrite Hk|].
    rewrite lookup_insert_ne by done. by rewrite Hk.
Qed.

(** ** Reports, accepted and rejected *)




(** ** Samples over a run *)

Lemma length_push_history_exact (h : Sample.t) (hist : list Sample.t) :
  (length hist ≤ 100)%nat →
  length (push_history h hist) = Nat.min 100 (length hist + 1).
Proof.
  intros Hlen. rewrite push_history_last, length_slice_last by lia.
  rewrite length_app. simpl. lia.
Qed.

Lemma step_history (s : state) (e : event) :
  if takes_sample e
  then ∃ h, history (step s e).1 = push_history h (history s)
  else history (step s e).1 = history s.
Proof.
  destruct e as [b now ts| | | | | | |]; simpl; try done; try by eexists.
  - unfold post_health_check, servers_set. by repeat case_match.
  - unfold get_server_metrics. by case_match.
  - unfold get_logs. by case_match.
Qed.

Lemma run_history_length (es : list event) :
  ∀ s, (length (history s) ≤ 100)%nat →
    length (history (run s es))
    = Nat.min 100 (length (history s) + length (List.filter takes_sample es)).
Proof.
  induction es as [|e es IH]; intros s Hlen.
  - change (run s []) with s.
    change (length (List.filter takes_sample [])) with 0%nat. lia.
  - rewrite run_cons, IH by by apply step_history_bound.
    pose proof (step_history s e) as Hstep. simpl List.filter.
    destruct (takes_sample e).
    + destruct Hstep as [h ->]. rewrite length_push_history_exact by done.
      simpl length. lia.
    + rewrite Hstep. lia.
Qed.

(** X7: from the start of the process the history holds one sample for each
    event that calls [collectMetrics] (a GET /api/metrics, a timer tick, the
    listen callback), up to the capacity of 100; no other request adds or
    removes a sample. *)
Theorem history_counts_the_samples (t0 t1 : Z) (file : option string)
    (es : list event) (e : event) :
  let s := run (metrics0 t0 t1 file) es in
  length (history s) = Nat.min 100 (length (List.filter takes_sample es))
  ∧ (takes_sample e = false → history (step s e).1 = history s).
Proof.
  intros s. split.
  - unfold s. rewrite run_history_length by (simpl; lia). done.
  - intros He. pose proof (step_history s e) as Hstep. by rewrite He in Hstep.
Qed.

Lemma push_history_snoc (h : Sample.t) (hist : list Sample.t) :
  ∃ older, push_history h hist = older ++ [h]
           ∧ (older = hist ∨ older = drop 1 hist).
Proof.
  unfold push_history. rewrite length_app. simpl.
  destruct (Z.ltb_spec 100 (Z.of_nat (length hist + 1))).
  - exists (drop 1 hist). split; [|by right]. apply drop_app_le. lia.
  - exists hist. split; [done|by left].
Qed.

Lemma step_serverCount (s : state) (e : event) :
  serverCount s ≤ serverCount (step s e).1.
Proof.
  rewrite !serverCount_size, <- !size_dom, step_dom.
  apply inj_le, subseteq_size, union_subseteq_l.
Qed.

Lemma history_ok_grows (s s' : state) :
  history s' = history s →
  Stats.totalRequests (systemStats s) ≤ Stats.totalRequests (systemStats s') →
  Stats.errorCount (systemStats s) ≤ Stats.errorCount (systemStats s') →
  serverCount s ≤ serverCount s' →
  history_ok s → history_ok s'.
Proof.
  intros Hh Hreq Herr Hcount [Hsorted Hall]. unfold history_ok.
  rewrite Hh. split; [done|].
  eapply Forall_impl; [exact Hall|]. simpl. intros h (? & ? & ? & ?).
  split_and!; lia.
Qed.

Lemma history_ok_collectMetrics (now : Z) (ts : string) (s : state) :
  history_ok s → history_ok (collectMetrics now ts s).
Proof.
  intros [Hsorted Hall].
  assert (0 ≤ healthyCount s ≤ serverCount s) as Hhealthy.
  { rewrite healthyCount_size, serverCount_size.
    split; [lia|]. apply inj_le, map_size_filter. }
  assert (StronglySorted sample_le (history s ++ [currentMetrics now s])
          ∧ Forall (λ h, 0 ≤ Sample.healthyServers h ≤ Sample.servers h
                         ∧ Sample.totalRequests h
                           ≤ Stats.totalRequests (systemStats s)
                         ∧ Sample.errorCount h
                           ≤ Stats.errorCount (systemStats s)
                         ∧ Sample.servers h ≤ serverCount s)
                   (history s ++ [currentMetrics now s])) as [Hs Ha].
  { split.
    - apply StronglySorted_app_2; [|done|repeat constructor].
      intros h1 h2 Hh1 ->%list_elem_of_singleton.
      rewrite Forall_forall in Hall. destruct (Hall h1 Hh1) as (_ & ? & ? & ?).
      by split_and!.
    - apply Forall_app. split; [done|].
      apply Forall_singleton. simpl. split_and!; lia. }
  unfold history_ok. rewrite collectMetrics_history.
  change (systemStats (collectMetrics now ts s))
    with (Stats.mk (Stats.startTime (systemStats s))
                   (Stats.totalRequests (systemStats s))
                   (Stats.errorCount (systemStats s)) now).
  change (serverCount (collectMetrics now ts s)) with (serverCount s).
  simpl Stats.totalRequests. simpl Stats.errorCount.
  unfold push_history. case_match.
  - split.
    + rewrite <- (take_drop 1 (history s ++ _)) in Hs.
      by apply StronglySorted_app_1_r in Hs.
    + by apply Forall_drop.
  - done.
Qed.

Lemma step_history_ok (s : state) (e : event) :
  history_ok s → history_ok (step s e).1.
Proof.
  intros Hok.
  destruct (step_counters s e) as (Hreq & Herr & _).
  pose proof (step_serverCount s e) as Hcount.
  destruct (takes_sample e) eqn:Hsample.
  - destruct e as [| now ts ta tb | | | | ts1 ts2 now ts3 | now ts |];
      try done; simpl.
    + apply history_ok_collectMetrics.
      apply (history_ok_grows s); simpl; try done; lia.
    + apply history_ok_collectMetrics.
      by apply (history_ok_grows s).
    + by apply history_ok_collectMetrics.
  - pose proof (step_history s e) as Hh. rewrite Hsample in Hh.
    apply (history_ok_grows s); try done.
    + rewrite Hreq. destruct (is_request e); lia.
    + rewrite Herr. destruct (is_error (step s e).2); lia.
Qed.

(** X8: in every state the process can reach, the samples of the history
    are in the order of their counts (the request counter, the error counter
    and the server count never go down from one sample to the next), and
    each sample counts at most as many healthy servers as servers and at
    most what the state counts now. *)
Theorem history_samples_are_ordered (s : state) :
  reachable s →
  StronglySorted sample_le (history s)
  ∧ Forall (λ h, 0 ≤ Sample.healthyServers h ≤ Sample.servers h
                 ∧ Sample.totalRequests h ≤ Stats.totalRequests (systemStats s)
                 ∧ Sample.errorCount h ≤ Stats.errorCount (systemStats s)
                 ∧ Sample.servers h ≤ serverCount s) (history s).
Proof.
  intros (t0 & t1 & file & es & ->).
  change (history_ok (run (metrics0 t0 t1 file) es)).
  induction es as [|e es IH] using rev_ind.
  - split; simpl; constructor.
  - rewrite run_snoc. by apply step_history_ok.
Qed.

Lemma collectMetrics_lastUpdate (now : Z) (ts : string) (s : state) :
  last (history (collectMetrics now ts s)) = Some (currentMetrics now s)
  ∧ Stats.lastUpdate (systemStats (collectMetrics now ts s)) = now.
Proof.
  split; [|done]. rewrite collectMetrics_history.
  destruct (push_history_snoc (currentMetrics now s) (history s))
    as (older & -> & _).
  apply last_snoc.
Qed.

Lemma step_lastUpdate (s : state) (e : event) (dflt : Z) :
  Stats.lastUpdate (systemStats s)
  = from_option Sample.timestamp dflt (last (history s)) →
  Stats.lastUpdate (systemStats (step s e).1)
  = from_option Sample.timestamp dflt (last (history (step s e).1)).
Proof.
  intros Hs.
  destruct e as [b now ts| now ts ta tb | | | | ts1 ts2 now ts3 | now ts |].
  - simpl. unfold post_health_check, servers_set. by repeat case_match.
  - change (step s (GetMetrics now ts ta tb)).1
      with (collectMetrics now ts (incr_totalRequests s)).
    by rewrite (proj1 (collectMetrics_lastUpdate now ts _)).
  - simpl. unfold get_server_metrics. by case_match.
  - simpl. unfold get_logs. by case_match.
  - done.
  - change (step s (Listening ts1 ts2 now ts3)).1
      with (listening PORT ts1 ts2 now ts3 s).
    unfold listening.
    by rewrite (proj1 (collectMetrics_lastUpdate now ts3 _)).
  - change (step s (Interval now ts)).1 with (collectMetrics now ts s).
    by rewrite (proj1 (collectMetrics_lastUpdate now ts s)).
  - done.
Qed.

(** X9: from the start of the process [lastUpdate] is the time stamp of the
    newest sample of the history, and the time read at module load as long
    as no sample was taken. *)
Theorem lastUpdate_is_the_newest_sample (t0 t1 : Z) (file : option string)
    (es : list event) :
  let s := run (metrics0 t0 t1 file) es in
  Stats.lastUpdate (systemStats s)
  = from_option Sample.timestamp t1 (last (history s)).
Proof.
  induction es as [|e es IH] using rev_ind; [done|].
  rewrite run_snoc. by apply step_lastUpdate.
Qed.

Lemma slice_last_snoc {A : Type} (start : Z) (l : list A) (x : A) :
  start < 0 → ∃ older, slice start (l ++ [x]) = older ++ [x].
Proof.
  intros Hstart. rewrite slice_last by done. rewrite length_app. simpl.
  exists (drop (length l + 1 - Z.to_nat (- start)) l).
  apply drop_app_le. lia.
Qed.

(** X10: the answer of GET /api/metrics agrees with itself: the newest point
    of its [history] array is the sample taken by this very read, with the
    time of the read and the same request count, error count, server count
    and healthy count as [current]; the request count includes the read. *)
Theorem metrics_answer_is_consistent (s : state) (now : Z) (ts : string)
    (t1 t2 : Z) :
  let answer := body (get_metrics now ts t1 t2 s).2 in
  let current := prop "current" answer in
  ∃ older newest,
    prop "history" answer = VArr (older ++ [newest])
    ∧ prop "timestamp" newest = VPrim (JNum now)
    ∧ prop "totalRequests" newest = prop "totalRequests" current
    ∧ prop "errorCount" newest = prop "errorCount" current
    ∧ prop "servers" newest = prop "serverCount" current
    ∧ prop "healthyServers" newest = prop "healthyCount" current
    ∧ prop "totalRequests" current
      = VPrim (JNum (Stats.totalRequests (systemStats s) + 1)).
Proof.
  simpl.
  destruct (push_history_snoc (currentMetrics now (incr_totalRequests s))
              (history s)) as (older & -> & _).
  destruct (slice_last_snoc (-20) older
              (currentMetrics now (incr_totalRequests s))) as (window & ->);
    [lia|].
  exists (Sample.to_js <$> window), (Sample.to_js
    (currentMetrics now (incr_totalRequests s))).
  rewrite fmap_app. done.
Qed.

(** X11: two GET /api/metrics in a row, with nothing in between, show the
    same table of servers, the same server count, healthy count and error
    count; the request count of the second is one more than that of the
    first. *)
Theorem metrics_reads_repeat (s : state) (now now' : Z) (ts ts' : string)
    (t1 t2 t1' t2' : Z) :
  let first := get_metrics now ts t1 t2 s in
  let second := get_metrics now' ts' t1' t2' first.1 in
  let current := prop "current" (body first.2) in
  let current' := prop "current" (body second.2) in
  prop "servers" current' = prop "servers" current
  ∧ prop "serverCount" current' = prop "serverCount" current
  ∧ prop "healthyCount" current' = prop "healthyCount" current
  ∧ prop "errorCount" current' = prop "errorCount" current
  ∧ prop "totalRequests" current
    = VPrim (JNum (Stats.totalRequests (systemStats s) + 1))
  ∧ prop "totalRequests" current'
    = VPrim (JNum (Stats.totalRequests (systemStats s) + 2)).
Proof.
  simpl. split_and!; try done. do 2 f_equal. lia.
Qed.

(** ** The log file *)

Lemma append_assoc (a b c : string) : (a +:+ b) +:+ c = a +:+ (b +:+ c).
Proof.
  induction a as [|ch a IH]; [done|].
  change (String ch ((a +:+ b) +:+ c) = String ch (a +:+ (b +:+ c))).
  by rewrite IH.
Qed.

Lemma append_nil_r (a : string) : a +:+ "" = a.
Proof.
  induction a as [|ch a IH]; [done|].
  change (String ch (a +:+ "") = String ch a). by rewrite IH.
Qed.

Lemma whole_lines_append (a b : string) :
  whole_lines a → whole_lines b → whole_lines (a +:+ b).
Proof.
  intros Ha [->|[front ->]]; [by rewrite append_nil_r|].
  right. exists (a +:+ front). by rewrite append_assoc.
Qed.

Lemma log_file_text (ts level message : string) (data : jsval) (s : state) :
  file_text (log ts level message data s)
  = file_text s
    +:+ (JSON_stringify (logEntry ts level message data) +:+ newline).
Proof. done. Qed.

Lemma whole_lines_line (line : string) : whole_lines (line +:+ newline).
Proof. right. by exists line. Qed.

Lemma whole_lines_more (line rest : string) :
  whole_lines rest → whole_lines (line +:+ (newline +:+ rest)).
Proof.
  intros Hrest. rewrite <- append_assoc.
  apply whole_lines_append; [apply whole_lines_line|done].
Qed.

Lemma file_text_servers_set (key : string) (r : Server.t) (s : state) :
  file_text (servers_set key r s) = file_text s.
Proof. unfold servers_set. by case_match. Qed.

Lemma step_file_text (s : state) (e : event) :
  ∃ added, file_text (step s e).1 = file_text s +:+ added ∧ whole_lines added.
Proof.
  destruct e as [b now ts| now ts ta tb |k|limit level ts|
                 | ts1 ts2 now ts3 | now ts |err ts].
  - simpl. unfold post_health_check.
    destruct (_ || _).
    + exists "". split; [by rewrite append_nil_r|by left].
    + eexists. split; [|apply whole_lines_line]. simpl.
      rewrite log_file_text, file_text_servers_set. reflexivity.
  - change (step s (GetMetrics now ts ta tb)).1
      with (collectMetrics now ts (incr_totalRequests s)).
    unfold collectMetrics. rewrite log_file_text.
    eexists. split; [reflexivity|apply whole_lines_line].
  - exists "". split; [|by left]. rewrite append_nil_r. simpl.
    unfold get_server_metrics. by case_match.
  - simpl. unfold get_logs.
    destruct (logFileContent (incr_totalRequests s)) eqn:Hfile.
    + exists "". split; [by rewrite append_nil_r|by left].
    + simpl. rewrite log_file_text.
      eexists. split; [reflexivity|apply whole_lines_line].
  - exists "". split; [by rewrite append_nil_r|by left].
  - change (step s (Listening ts1 ts2 now ts3)).1
      with (listening PORT ts1 ts2 now ts3 s).
    unfold listening, collectMetrics. rewrite log_file_text.
    change (file_text (mkState _ _ _ _ (logFileContent ?s0)))
      with (file_text s0).
    rewrite !log_file_text, !append_assoc.
    eexists. split; [reflexivity|].
    do 2 apply whole_lines_more. apply whole_lines_line.
  - change (step s (Interval now ts)).1 with (collectMetrics now ts s).
    unfold collectMetrics. rewrite log_file_text.
    eexists. split; [reflexivity|apply whole_lines_line].
  - change (step s (MiddlewareError err ts)).1
      with (log ts "error" "Server error" err (incr_errorCount s)).
    rewrite log_file_text.
    eexists. split; [reflexivity|apply whole_lines_line].
Qed.

(** X12: the log file is append-only.  Every event leaves the text of the
    file as it was and adds whole lines to it, or nothing; the file is never
    removed; and a file made of whole lines stays so. *)
Theorem log_file_is_append_only (s : state) (e : event) :
  (∃ added, file_text (step s e).1 = file_text s +:+ added
            ∧ whole_lines added)
  ∧ (is_Some (logFileContent s) → is_Some (logFileContent (step s e).1))
  ∧ (whole_lines (file_text s) → whole_lines (file_text (step s e).1)).
Proof.
  destruct (step_file_text s e) as (added & Htext & Hadded). split_and!.
  - by exists added.
  - intros [c Hc].
    destruct e as [b now ts| | | | | | |]; simpl; try done.
    + unfold post_health_check. destruct (_ || _); simpl; [by rewrite Hc|done].
    + unfold get_server_metrics. case_match; simpl; by rewrite Hc.
    + unfold get_logs. simpl. by rewrite Hc.
  - intros Hs. rewrite Htext. by apply whole_lines_append.
Qed.


Lemma filter_true {A : Type} (f : A → bool) (l : list A) :
  Forall (λ x, f x = true) (List.filter f l).
Proof.
  apply Forall_forall. intros x Hx%list_elem_of_In.
  by apply List.filter_In in Hx as [_ Hx].
Qed.

Lemma logs_limit_nonzero (limit : option string) : logs_limit limit ≠ 0.
Proof.
  unfold logs_limit. destruct (parseInt (param limit)) as [n|]; [|done].
  by destruct (Z.eqb_spec n 0).
Qed.

Lemma length_slice {A : Type} (start : Z) (l : list A) :
  Z.of_nat (length (slice start l))
  = if start <? 0 then Z.min (- start) (Z.of_nat (length l))
    else Z.max (Z.of_nat (length l) - start) 0.
Proof.
  unfold slice. rewrite length_drop.
  destruct (Z.ltb_spec start 0); lia.
Qed.


(** X14: when the log file can be read, GET /api/logs is answered 200 and
    changes nothing but the request counter.  The entries it considers are
    the lines of the file that are not blank and parse to something other
    than [null], restricted to the given level when [level] is a non-empty
    string; [total] is their number whatever the limit.  The limit L is never
    0; the [logs] array is the end of those entries, in file order: the last
    min(L, total) of them for a positive L, and all but the first -L of them
    for a negative L. *)
Theorem logs_answer (limit level : option string) (ts : string) (s : state)
    (content : string) :
  logFileContent s = Some content →
  let matching := filter_logs level (read_logs content) in
  let L := logs_limit limit in
  let r := get_logs limit level ts s in
  L ≠ 0
  ∧ statusCode r.2 = 200
  ∧ r.1 = incr_totalRequests s
  ∧ prop "total" (body r.2) = VPrim (JNum (Z.of_nat (length matching)))
  ∧ prop "filtered" (body r.2) = VPrim (JBool (truthy (param level)))
  ∧ (∃ items, prop "logs" (body r.2) = VArr items
              ∧ items `suffix_of` matching
              ∧ Z.of_nat (length items)
                = if 0 <? L then Z.min L (Z.of_nat (length matching))
                  else Z.max (Z.of_nat (length matching) + L) 0)
  ∧ Forall (λ entry, is_null entry = false) matching
  ∧ (∀ l, level = Some l → l ≠ "" →
       Forall (λ entry, prop "level" entry = VPrim (JStr l)) matching).
Proof.
  intros Hfile matching L r.
  pose proof (logs_limit_nonzero limit) as HL. fold L in HL.
  assert (r = (incr_totalRequests s,
               mkResponse 200 (VObj
                 [("logs", VArr (slice (- L) matching));
                  ("total", VPrim (JNum (Z.of_nat (length matching))));
                  ("filtered", VPrim (JBool (truthy (param level))))])))
    as ->.
  { unfold r, get_logs. simpl. by rewrite Hfile. }
  split_and!; try done.
  - exists (slice (- L) matching). split_and!; [done|apply suffix_drop|].
    rewrite length_slice.
    destruct (Z.ltb_spec (- L) 0), (Z.ltb_spec 0 L); lia.
  - assert (Forall (λ entry, is_null entry = false) (read_logs content)) as Hn.
    { unfold read_logs. eapply Forall_impl; [apply filter_true|].
      simpl. intros x. by destruct (is_null x). }
    unfold matching, filter_logs. case_match; [|done].
    apply Forall_forall. intros x Hx%list_elem_of_In.
    apply List.filter_In in Hx as [Hx%list_elem_of_In _].
    by rewrite Forall_forall in Hn; apply Hn.
  - intros l -> Hl. unfold matching, filter_logs. simpl.
    destruct (String.eqb_spec l ""); [done|]. simpl.
    eapply Forall_impl; [apply filter_true|]. simpl. intros x.
    unfold is_string, strict_eq. destruct (prop "level" x); [|done..].
    by intros ->%bool_decide_eq_true.
Qed.






(** ** Queries for keys that were never reported *)

Lemma step_proto (s : state) (e : event) :
  "__proto__" ∉ reported_keys [e] →
  servers_proto (step s e).1 = servers_proto s.
Proof.
  destruct e as [b now ts| | | | | | |]; simpl; try done.
  - unfold reported_keys. simpl.
    destruct (valid_report b) eqn:Hb.
    + simpl. intros Hk. unfold post_health_check.
      unfold valid_report in Hb. apply andb_prop in Hb as [Hb ->].
      apply andb_prop in Hb as [-> ->]. simpl. unfold servers_set.
      destruct (String.eqb_spec (ToString (field JUndefined "serverId" b))
                  "__proto__") as [Heq|]; [|done].
      destruct Hk. unfold report_key. rewrite Heq. apply list_elem_of_here.
    + intros _. by rewrite post_health_check_invalid.
  - intros _. unfold get_server_metrics. by case_match.
  - intros _. unfold get_logs. by case_match.
Qed.

Lemma run_proto (es : list event) :
  ∀ s, "__proto__" ∉ reported_keys es →
       servers_proto (run s es) = servers_proto s.
Proof.
  induction es as [|e es IH]; intros s Hes; [done|].
  rewrite reported_keys_cons in Hes. apply not_elem_of_app in Hes as [He Hes].
  by rewrite run_cons, IH, step_proto.
Qed.

(** X16: from the start of the process, as long as no valid report named the
    key [__proto__], a GET /api/metrics/:serverId for a key that no valid
    report named and that is not the name of a property of
    [Object.prototype] is answered 404 with [Server not found]; it is
    counted as a request and as an error and changes nothing else. *)
Theorem never_reported_key_not_found (t0 t1 : Z) (file : option string)
    (es : list event) (k : string) :
  k ∉ reported_keys es →
  "__proto__" ∉ reported_keys es →
  k ∉ "__proto__" :: Object_prototype_functions →
  let s := run (metrics0 t0 t1 file) es in
  get_server_metrics k s
  = (incr_errorCount (incr_totalRequests s),
     mkResponse 404 (VObj [("error", VPrim (JStr "Server not found"))])).
Proof.
  intros Hk Hproto Hplain s.
  assert (dom (servers s)
          = list_to_set (filter (λ k, k ≠ "__proto__") (reported_keys es)))
    as Hdom.
  { unfold s. rewrite run_dom. simpl. by rewrite dom_empty_L, union_empty_l_L. }
  assert (servers s !! k = None) as Hown.
  { apply not_elem_of_dom. rewrite Hdom.
    rewrite elem_of_list_to_set, list_elem_of_filter. by intros [_ ?]. }
  assert (servers_proto s = None) as Hp by (unfold s; by rewrite run_proto).
  apply unknown_key_not_found.
  unfold servers_get. rewrite Hown, Hp. simpl.
  destruct (String.eqb_spec k "__proto__") as [->|_].
  { destruct Hplain. apply list_elem_of_here. }
  case_bool_decide; [|done].
  destruct Hplain. by apply list_elem_of_further.
Qed.

End Monitor.

(** ** The statements at concrete inputs

    The builtins are [JSON.stringify] and [JSON.parse_integer], the port is
    8080, and the clock readings are arbitrary. *)

Lemma history_is_a_bounded_window_witness :
  let s := run JSON.stringify JSON.parse_integer "8080" (metrics0 1000 1000 None)
             [Listening "T1" "T2" 1001 "T3"; GetMetrics 1500 "T4" 1500 1501] in
  reachable JSON.stringify JSON.parse_integer "8080" s
  ∧ (length (history s) ≤ 100)%nat.
Proof.
  intros s.
  assert (reachable JSON.stringify JSON.parse_integer "8080" s) as Hs.
  { exists 1000, 1000, None, [Listening "T1" "T2" 1001 "T3"; GetMetrics 1500 "T4" 1500 1501].
    reflexivity. }
  split; [exact Hs|].
  exact (proj1 (history_is_a_bounded_window _ _ _ s Hs)).
Defined.

Lemma metrics_read_takes_a_sample_witness :
  let s := run JSON.stringify JSON.parse_integer "8080" (metrics0 1000 1000 None)
             [Listening "T1" "T2" 1001 "T3"] in
  let s' := (get_metrics JSON.stringify 1500 "T4" 1500 1501 s).1 in
  reachable JSON.stringify JSON.parse_integer "8080" s
  ∧ length (history s) = 1%nat
  ∧ length (history s') = Nat.min 100 (length (history s) + 1)
  ∧ servers s' = servers s.
Proof.
  intros s s'.
  assert (reachable JSON.stringify JSON.parse_integer "8080" s) as Hs.
  { exists 1000, 1000, None, [Listening "T1" "T2" 1001 "T3"]. reflexivity. }
  pose proof (metrics_read_takes_a_sample JSON.stringify JSON.parse_integer
                "8080" s 1500 "T4" 1500 1501 Hs) as (_ & Hlen & Hservers & _).
  split; [exact Hs|]. split; [reflexivity|]. split; [exact Hlen|exact Hservers].
Defined.

Lemma checksCount_counts_reports_witness :
  let github := [("serverId", JStr "github"); ("serverName", JStr "GitHub MCP");
                 ("status", JStr "healthy"); ("responseTime", JNum 42)] in
  let slack := [("serverId", JStr "slack"); ("serverName", JStr "Slack MCP");
                ("status", JStr "unhealthy")] in
  let es := [PostHealthCheck github 1100 "T1"; PostHealthCheck slack 1200 "T2";
             GetMetrics 1300 "T3" 1300 1301; PostHealthCheck github 1400 "T4"] in
  let s := run JSON.stringify JSON.parse_integer "8080" (metrics0 1000 1000 None) es in
  1 ≤ reports_for "github" es
  ∧ ∃ r, servers_get s "github" = RServer r ∧ Server.checksCount r = 2.
Proof.
  intros github slack es s.
  assert (1 ≤ reports_for "github" es) as Hn by (vm_compute; discriminate).
  split; [exact Hn|].
  exact (proj1 (proj2 (checksCount_counts_reports JSON.stringify
                         JSON.parse_integer "8080" 1000 1000 None es
                         "github")) Hn).
Defined.

Lemma report_then_detail_witness :
  let report := [("serverId", JStr "github"); ("serverName", JStr "GitHub MCP");
                 ("status", JStr "healthy"); ("responseTime", JNum 42)] in
  let posted := post_health_check JSON.stringify report 1100 "T1" (metrics0 1000 1000 None) in
  let detail := (get_server_metrics "github" posted.1).2 in
  stored_checksCount (metrics0 1000 1000 None) "github" = 0
  ∧ statusCode posted.2 = 200
  ∧ prop "success" (body posted.2) = VPrim (JBool true)
  ∧ statusCode detail = 200
  ∧ prop "checksCount" (body detail) = VPrim (JNum 1)
  ∧ prop "status" (body detail) = VPrim (JStr "healthy")
  ∧ prop "responseTime" (body detail) = VPrim (JNum 42).
Proof.
  split; [reflexivity|].
  apply (report_then_detail JSON.stringify (metrics0 1000 1000 None) 1100 "T1").
  reflexivity.
Defined.

(** C1 as stated, at its own input: the body names its fields [serviceId]
    and [serviceName]; the report is answered 400 and the query for
    [github] that follows is answered 404. *)
Lemma report_with_service_fields_is_rejected :
  let report := [("serviceId", JStr "github"); ("serviceName", JStr "GitHub MCP");
                 ("status", JStr "healthy"); ("responseTime", JNum 42)] in
  let posted := post_health_check JSON.stringify report 1100 "T1" (metrics0 1000 1000 None) in
  let detail := (get_server_metrics "github" posted.1).2 in
  statusCode posted.2 = 400
  ∧ statusCode detail = 404
  ∧ body detail = VObj [("error", VPrim (JStr "Server not found"))]
  ∧ ¬ (statusCode posted.2 = 200
       ∧ prop "checksCount" (body detail) = VPrim (JNum 1)).
Proof.
  intros report posted detail. split_and!; try reflexivity.
  intros [H _]. vm_compute in H. discriminate.
Qed.

Lemma record_created_by_first_report_witness :
  let report := [("serverId", JStr "github"); ("serverName", JStr "GitHub MCP");
                 ("status", JStr "degraded")] in
  valid_report report = true
  ∧ stored_checksCount (metrics0 1000 1000 None) (report_key report) = 0
  ∧ servers_get (post_health_check JSON.stringify report 1100 "T1"
                   (metrics0 1000 1000 None)).1 "github"
    = RServer (Server.mk (JStr "GitHub MCP") (JStr "degraded") JUndefined
                         JUndefined 1100 1)
  ∧ servers (get_server_metrics "github" (metrics0 1000 1000 None)).1 = ∅.
Proof.
  intros report. split; [reflexivity|]. split; [reflexivity|].
  destruct (record_created_by_first_report JSON.stringify (metrics0 1000 1000 None)
              report 1100 "T1" "github" eq_refl eq_refl) as (Hget & Hown & _).
  split; [exact Hget|exact Hown].
Defined.

(** C2 as stated, at the key [github] on a fresh process: the query leaves
    the table empty, so no record with status [unknown] exists after it;
    and the record created by a first report carries the reported status,
    here [healthy], not [unknown]. *)
Lemma query_creates_no_record :
  let queried := (get_server_metrics "github" (metrics0 1000 1000 None)).1 in
  let report := [("serverId", JStr "github"); ("serverName", JStr "GitHub MCP");
                 ("status", JStr "healthy")] in
  let reported :=
    (post_health_check JSON.stringify report 1100 "T1" (metrics0 1000 1000 None)).1 in
  servers queried = ∅
  ∧ servers_get queried "github" = RPrim JUndefined
  ∧ ref_status (servers_get reported "github") = JStr "healthy"
  ∧ ¬ (∃ r, servers_get queried "github" = RServer r
            ∧ Server.status r = JStr "unknown").
Proof.
  intros queried report reported. split_and!; try reflexivity.
  intros (r & Hr & _). vm_compute in Hr. discriminate.
Qed.

Lemma invalid_report_is_rejected_witness :
  let report := [("serverId", JStr "github"); ("serverName", JStr "GitHub MCP")] in
  let r := post_health_check JSON.stringify report 1100 "T1" (metrics0 1000 1000 None) in
  "status" ∈ ["serverId"; "serverName"; "status"]
  ∧ (field JUndefined "status" report = JUndefined
     ∨ field JUndefined "status" report = JStr "")
  ∧ statusCode r.2 = 400
  ∧ Stats.errorCount (systemStats r.1) = 1
  ∧ Stats.totalRequests (systemStats r.1) = 1
  ∧ servers r.1 = ∅.
Proof.
  intros report r.
  assert ("status" ∈ ["serverId"; "serverName"; "status"]) as Hf
    by (do 2 apply list_elem_of_further; apply list_elem_of_here).
  assert (field JUndefined "status" report = JUndefined
          ∨ field JUndefined "status" report = JStr "") as Hmissing
    by (left; reflexivity).
  destruct (invalid_report_is_rejected JSON.stringify (metrics0 1000 1000 None) report
              1100 "T1" "status" Hf Hmissing)
    as (Hcode & Herr & Hreq & Hown & _).
  split; [exact Hf|]. split; [exact Hmissing|].
  split; [exact Hcode|]. split; [exact Herr|]. split; [exact Hreq|exact Hown].
Defined.

(** C3 as stated, at a report without [status] on a fresh process: the
    state after the rejected report is not the state with only the error
    counter incremented, because the request counter went from 0 to 1. *)
Lemma invalid_report_counts_as_request :
  let report := [("serverId", JStr "github"); ("serverName", JStr "GitHub MCP")] in
  let r := post_health_check JSON.stringify report 1100 "T1" (metrics0 1000 1000 None) in
  statusCode r.2 = 400
  ∧ Stats.totalRequests (systemStats (metrics0 1000 1000 None)) = 0
  ∧ Stats.totalRequests (systemStats r.1) = 1
  ∧ r.1 ≠ incr_errorCount (metrics0 1000 1000 None).
Proof.
  intros report r. split_and!; try reflexivity.
  intros H. apply (f_equal (λ s, Stats.totalRequests (systemStats s))) in H.
  vm_compute in H. discriminate.
Qed.

Lemma detail_history_reuses_current_status_witness :
  let report := [("serverId", JStr "github"); ("serverName", JStr "GitHub MCP");
                 ("status", JStr "healthy"); ("responseTime", JNum 42)] in
  let s := run JSON.stringify JSON.parse_integer "8080" (metrics0 1000 1000 None)
             [Listening "T1" "T2" 1001 "T3"; PostHealthCheck report 1100 "T4";
              Interval 31001 "T5"] in
  let r := Server.mk (JStr "GitHub MCP") (JStr "healthy") (JNum 42)
                     JUndefined 1100 1 in
  servers_get s "github" = RServer r
  ∧ prop "history" (body (get_server_metrics "github" s).2)
    = VArr [VObj [("timestamp", VPrim (JNum 1001));
                  ("status", VPrim (JStr "healthy"));
                  ("responseTime", VPrim (JNum 42))];
            VObj [("timestamp", VPrim (JNum 31001));
                  ("status", VPrim (JStr "healthy"));
                  ("responseTime", VPrim (JNum 42))]].
Proof.
  intros report s r.
  assert (servers_get s "github" = RServer r) as Hr by reflexivity.
  split; [exact Hr|].
  exact (proj1 (proj2 (proj2
           (detail_history_reuses_current_status s "github" r Hr)))).
Defined.

Lemma logs_limit_falls_back_witness :
  let nl := String "010" "" in
  let s := metrics0 1000 1000
             (Some ("1" +:+ nl +:+ "2" +:+ nl +:+ "3" +:+ nl)) in
  let resp := (get_logs JSON.stringify JSON.parse_integer (Some "abc") None
                 "T1" s).2 in
  parseInt (param (Some "abc")) = None
  ∧ logs_limit (Some "abc") = 100
  ∧ statusCode resp = 200
  ∧ prop "logs" (body resp)
    = VArr [VPrim (JNum 1); VPrim (JNum 2); VPrim (JNum 3)].
Proof.
  intros nl s resp.
  destruct (logs_limit_falls_back JSON.stringify JSON.parse_integer
              (Some "abc") None "T1" s
              ("1" +:+ nl +:+ "2" +:+ nl +:+ "3" +:+ nl) eq_refl
              (or_introl eq_refl)) as (Hlimit & Hcode & Hlogs & _).
  split; [reflexivity|]. split; [exact (Hlimit (or_introl eq_refl))|].
  split; [exact Hcode|exact Hlogs].
Defined.

(** C10 as stated, at [limit=-5] on a process started with three entries in
    the log file: the
    parameter parses to -5, which is kept as the limit; [slice(5)] of the
    three entries is empty, so the response holds zero entries while three
    are available. *)
Lemma negative_limit_returns_nothing :
  let nl := String "010" "" in
  let s := metrics0 1000 1000
             (Some ("1" +:+ nl +:+ "2" +:+ nl +:+ "3" +:+ nl)) in
  let resp := (get_logs JSON.stringify JSON.parse_integer (Some "-5") None
                 "T1" s).2 in
  parseInt (param (Some "-5")) = Some (-5)
  ∧ logs_limit (Some "-5") = -5
  ∧ statusCode resp = 200
  ∧ prop "total" (body resp) = VPrim (JNum 3)
  ∧ prop "logs" (body resp) = VArr [].
Proof. intros nl s resp. split_and!; reflexivity. Qed.

(** The two inputs C10 names, [limit=0] and [limit=abc], and an absent
    parameter all give the default of 100. *)
Example logs_limit_examples :
  logs_limit (Some "0") = 100 ∧ logs_limit (Some "abc") = 100
  ∧ logs_limit None = 100 ∧ logs_limit (Some "10") = 10.
Proof. split_and!; reflexivity. Qed.

(** ** Further statements at concrete inputs

    The builtins are [JSON.stringify] and [JSON.parse]. *)

Lemma records_change_only_by_their_reports_witness :
  let github := [("serverId", JStr "github"); ("serverName", JStr "GitHub MCP");
                 ("status", JStr "healthy")] in
  let slack := [("serverId", JStr "slack"); ("serverName", JStr "Slack MCP");
                ("status", JStr "unhealthy")] in
  let s := (post_health_check JSON.stringify github 1100 "T1"
              (metrics0 1000 1000 None)).1 in
  let r := Server.mk (JStr "GitHub MCP") (JStr "healthy") JUndefined
                     JUndefined 1100 1 in
  servers s !! "github" = Some r
  ∧ counts_for "github" (PostHealthCheck slack 1200 "T2") = 0
  ∧ servers (step JSON.stringify JSON.parse "8080" s
               (PostHealthCheck slack 1200 "T2")).1 !! "github" = Some r.
Proof.
  intros github slack s r.
  assert (servers s !! "github" = Some r) as Hr by reflexivity.
  split; [exact Hr|]. split; [reflexivity|].
  exact (proj2 (records_change_only_by_their_reports JSON.stringify JSON.parse
                  "8080" s (PostHealthCheck slack 1200 "T2") "github" r Hr)
               eq_refl).
Defined.



Lemma history_counts_the_samples_witness :
  let s := run JSON.stringify JSON.parse "8080" (metrics0 1000 1000 None)
             [Listening "T1" "T2" 1001 "T3"; GetHealth 1002 1003;
              Interval 31001 "T4"] in
  takes_sample (GetServerMetrics "github") = false
  ∧ length (history s) = 2%nat
  ∧ history (step JSON.stringify JSON.parse "8080" s
               (GetServerMetrics "github")).1 = history s.
Proof.
  intros s. split; [reflexivity|].
  destruct (history_counts_the_samples JSON.stringify JSON.parse "8080"
              1000 1000 None
              [Listening "T1" "T2" 1001 "T3"; GetHealth 1002 1003;
               Interval 31001 "T4"] (GetServerMetrics "github"))
    as [Hlen Hsame].
  split; [exact Hlen|exact (Hsame eq_refl)].
Defined.

Lemma history_samples_are_ordered_witness :
  let report := [("serverId", JStr "github"); ("serverName", JStr "GitHub MCP");
                 ("status", JStr "healthy")] in
  let s := run JSON.stringify JSON.parse "8080" (metrics0 1000 1000 None)
             [Listening "T1" "T2" 1001 "T3"; PostHealthCheck report 1100 "T4";
              GetMetrics 1500 "T5" 1500 1501] in
  reachable JSON.stringify JSON.parse "8080" s
  ∧ StronglySorted sample_le (history s).
Proof.
  intros report s.
  assert (reachable JSON.stringify JSON.parse "8080" s) as Hs.
  { exists 1000, 1000, None,
      [Listening "T1" "T2" 1001 "T3"; PostHealthCheck report 1100 "T4";
       GetMetrics 1500 "T5" 1500 1501]. reflexivity. }
  split; [exact Hs|].
  exact (proj1 (history_samples_are_ordered JSON.stringify JSON.parse "8080"
                  s Hs)).
Defined.

Lemma log_file_is_append_only_witness :
  let s := metrics0 1000 1000 None in
  whole_lines (file_text s)
  ∧ whole_lines (file_text (step JSON.stringify JSON.parse "8080" s
                              (Listening "T1" "T2" 1001 "T3")).1).
Proof.
  intros s.
  assert (whole_lines (file_text s)) as Hs by (left; reflexivity).
  split; [exact Hs|].
  exact (proj2 (proj2 (log_file_is_append_only JSON.stringify JSON.parse
                         "8080" s (Listening "T1" "T2" 1001 "T3"))) Hs).
Defined.


Lemma logs_answer_witness :
  let s := run JSON.stringify JSON.parse "8080" (metrics0 1000 1000 None)
             [Listening "T1" "T2" 1001 "T3";
              MiddlewareError (VObj []) "T4"] in
  let r := get_logs JSON.stringify JSON.parse (Some "2") (Some "info") "T5" s in
  is_Some (logFileContent s)
  ∧ statusCode r.2 = 200
  ∧ prop "total" (body r.2) = VPrim (JNum 3)
  ∧ prop "filtered" (body r.2) = VPrim (JBool true).
Proof.
  intros s r.
  assert (logFileContent s = Some (file_text s)) as Hfile by reflexivity.
  destruct (logs_answer JSON.stringify JSON.parse (Some "2") (Some "info")
              "T5" s (file_text s) Hfile)
    as (_ & Hcode & _ & Htotal & Hfiltered & _).
  split; [by eexists|]. split; [exact Hcode|].
  split; [exact Htotal|exact Hfiltered].
Defined.


Lemma never_reported_key_not_found_witness :
  let report := [("serverId", JStr "github"); ("serverName", JStr "GitHub MCP");
                 ("status", JStr "healthy")] in
  let es := [Listening "T1" "T2" 1001 "T3"; PostHealthCheck report 1100 "T4"] in
  let s := run JSON.stringify JSON.parse "8080" (metrics0 1000 1000 None) es in
  ("slack" ∉ reported_keys es)
  ∧ ("__proto__" ∉ reported_keys es)
  ∧ ("slack" ∉ "__proto__" :: Object_prototype_functions)
  ∧ statusCode (get_server_metrics "slack" s).2 = 404.
Proof.
  intros report es s.
  assert ("slack" ∉ reported_keys es) as H1
    by (apply (bool_decide_unpack _); vm_compute; exact I).
  assert ("__proto__" ∉ reported_keys es) as H2
    by (apply (bool_decide_unpack _); vm_compute; exact I).
  assert ("slack" ∉ "__proto__" :: Object_prototype_functions) as H3
    by (apply (bool_decide_unpack _); vm_compute; exact I).
  split; [exact H1|]. split; [exact H2|]. split; [exact H3|].
  exact (f_equal (λ r, statusCode r.2)
           (never_reported_key_not_found JSON.stringify JSON.parse "8080"
              1000 1000 None es "slack" H1 H2 H3)).
Defined.
